(** * Calendar action handlers of the meeting-booking assistant

    A shallow embedding of [actions/actions.py]: the credential /
    service acquisition [get_calendar_service], the two calendar client
    wrappers [add_event] and [get_events], and the two action handlers
    [AddEventToCalendar.run] and [GetEvent.run].

    The handlers are effectful Python: they print, they utter messages
    through the dispatcher, they call the remote calendar service and
    they use exceptions for control flow.  They are embedded in a small
    state-and-exception monad; everything outside the repository (the
    OAuth machinery, the remote service, the clock, the token cache on
    disk) is an explicit oracle record, and the fragment of Python's
    [datetime] the handlers use is embedded as executable functions. *)

From Stdlib Require Import ZArith List String Ascii Bool Lia.
From Stdlib Require Import DecimalString.
Import ListNotations.

Open Scope string_scope.
Open Scope Z_scope.

(* ===================================================================== *)
(** * Python exceptions and outcomes *)
(* ===================================================================== *)

(** The exception classes the handlers discriminate on.  [ValueError]
    stands for the class and its subclasses, [HttpError] is
    [googleapiclient.errors.HttpError], [KeyError] is what a missing
    dictionary key raises, [OtherError] is any other subclass of
    [Exception]. *)
Inductive exn_class := ValueError | KeyError | HttpError | OtherError.

(** An exception: its class and its [str()]. *)
Record exn := Exn { exn_cls : exn_class; exn_str : string }.

Definition is_ValueError (e : exn) : bool :=
  match exn_cls e with ValueError => true | _ => false end.

Definition is_HttpError (e : exn) : bool :=
  match exn_cls e with HttpError => true | _ => false end.

(** [str(KeyError(k))] is the [repr] of the key. *)
Definition key_error (k : string) : exn := Exn KeyError ("'" ++ k ++ "'").

Inductive outcome (A : Type) : Type :=
| Done (a : A)
| Raised (e : exn).
Arguments Done {A} a.
Arguments Raised {A} e.

(** [str(x)] for a value that may be [None]. *)
Definition str_opt (o : option string) : string :=
  match o with Some s => s | None => "None" end.

(** The newline character and ["sep".join(l)]. *)
Definition nl : string := String (ascii_of_nat 10) EmptyString.

Definition join (sep : string) (l : list string) : string := String.concat sep l.

(* ===================================================================== *)
(** * The fragment of [datetime] the handlers use *)
(* ===================================================================== *)

Module PyDatetime.

(** A [datetime.datetime]: civil fields, and the UTC offset in minutes of
    its [tzinfo] ([None] for a naive value). *)
Record datetime := mkdt {
  year : Z; month : Z; day : Z;
  hour : Z; minute : Z; second : Z; microsecond : Z;
  utcoffset : option Z
}.

Definition MAXYEAR : Z := 9999.
Definition MAXORDINAL : Z := 3652059.

Definition is_leap (y : Z) : bool :=
  (y mod 4 =? 0) && (negb (y mod 100 =? 0) || (y mod 400 =? 0)).

Definition days_before_year (y : Z) : Z :=
  let p := y - 1 in p * 365 + p / 4 - p / 100 + p / 400.

Definition days_in_month (y m : Z) : Z :=
  if m =? 2 then (if is_leap y then 29 else 28)
  else if (m =? 4) || (m =? 6) || (m =? 9) || (m =? 11) then 30
  else 31.

(** [_DAYS_BEFORE_MONTH]. *)
Definition DAYS_BEFORE_MONTH (m : Z) : Z :=
  match m with
  | 1 => 0 | 2 => 31 | 3 => 59 | 4 => 90 | 5 => 120 | 6 => 151
  | 7 => 181 | 8 => 212 | 9 => 243 | 10 => 273 | 11 => 304 | 12 => 334
  | _ => 0
  end.

(** [_DAYS_IN_MONTH]. *)
Definition DAYS_IN_MONTH (m : Z) : Z :=
  match m with
  | 2 => 28
  | 4 | 6 | 9 | 11 => 30
  | _ => 31
  end.

Definition days_before_month (y m : Z) : Z :=
  DAYS_BEFORE_MONTH m + (if (2 <? m) && is_leap y then 1 else 0).

Definition ymd2ord (y m d : Z) : Z :=
  days_before_year y + days_before_month y m + d.

(** Month and day of the [n]-th day (from 0) of a year, the tail of
    [_ord2ymd]: an estimate of the month that is corrected downwards. *)
Definition month_day (leapyear : bool) (n : Z) : Z * Z :=
  let month := Z.shiftr (n + 50) 5 in
  let preceding :=
    DAYS_BEFORE_MONTH month + (if (2 <? month) && leapyear then 1 else 0) in
  if n <? preceding then
    let month' := month - 1 in
    let preceding' :=
      preceding - (DAYS_IN_MONTH month' + (if (month' =? 2) && leapyear then 1 else 0)) in
    (month', n - preceding' + 1)
  else (month, n - preceding + 1).

(** [_ord2ymd]: the civil date of a proleptic Gregorian ordinal. *)
Definition ord2ymd (ordinal : Z) : Z * Z * Z :=
  let n := ordinal - 1 in
  let n400 := n / 146097 in
  let n := n mod 146097 in
  let y := n400 * 400 + 1 in
  let n100 := n / 36524 in
  let n := n mod 36524 in
  let n4 := n / 1461 in
  let n := n mod 1461 in
  let n1 := n / 365 in
  let n := n mod 365 in
  let y := y + n100 * 100 + n4 * 4 + n1 in
  if (n1 =? 4) || (n100 =? 4) then (y - 1, 12, 31)
  else
    let leapyear := (n1 =? 3) && (negb (n4 =? 24) || (n100 =? 3)) in
    let '(m, d) := month_day leapyear n in
    (y, m, d).

Definition toordinal (d : datetime) : Z := ymd2ord (year d) (month d) (day d).

(** The checks of the [datetime] constructor. *)
Definition check_fields (y m d hh mm ss us : Z) : option string :=
  if negb ((1 <=? y) && (y <=? MAXYEAR)) then Some "year is out of range"
  else if negb ((1 <=? m) && (m <=? 12)) then Some "month must be in 1..12"
  else if negb ((1 <=? d) && (d <=? days_in_month y m)) then
    Some "day is out of range for month"
  else if negb ((0 <=? hh) && (hh <=? 23)) then Some "hour must be in 0..23"
  else if negb ((0 <=? mm) && (mm <=? 59)) then Some "minute must be in 0..59"
  else if negb ((0 <=? ss) && (ss <=? 59)) then Some "second must be in 0..59"
  else if negb ((0 <=? us) && (us <=? 999999)) then
    Some "microsecond must be in 0..999999"
  else None.

(** The class invariant of [datetime]. *)
Definition wf (d : datetime) : Prop :=
  check_fields (year d) (month d) (day d)
               (hour d) (minute d) (second d) (microsecond d) = None.

(** [d + timedelta(days=days, seconds=seconds)], as [datetime.__add__]
    computes it: through the ordinal of the date and the second of the
    day, keeping microseconds and [tzinfo]; [OverflowError] outside
    the supported range of dates. *)
Definition add_timedelta (d : datetime) (days seconds : Z) : outcome datetime :=
  let total := hour d * 3600 + minute d * 60 + second d + seconds in
  let delta_days := toordinal d + days + total / 86400 in
  let delta_seconds := total mod 86400 in
  let hh := delta_seconds / 3600 in
  let rem := delta_seconds mod 3600 in
  if (0 <? delta_days) && (delta_days <=? MAXORDINAL) then
    let '(y, m, dd) := ord2ymd delta_days in
    Done (mkdt y m dd hh (rem / 60) (rem mod 60) (microsecond d) (utcoffset d))
  else Raised (Exn OtherError "date value out of range").

(** Seconds elapsed since 0001-01-01T00:00:00 UTC (wall-clock seconds for
    a naive value): the instant a value denotes. *)
Definition utc_seconds (d : datetime) : Z :=
  toordinal d * 86400 + hour d * 3600 + minute d * 60 + second d
  - 60 * (match utcoffset d with Some off => off | None => 0 end).

(** ** Formatting *)

Definition decimal (z : Z) : string :=
  NilZero.string_of_uint (N.to_uint (Z.to_N z)).

Fixpoint zeros (n : nat) : string :=
  match n with O => "" | S n' => "0" ++ zeros n' end.

(** ["%0<width>d" % z] for a non-negative [z]. *)
Definition zfill (width : nat) (z : Z) : string :=
  let s := decimal z in
  zeros (width - String.length s) ++ s.

Definition format_offset (off : Z) : string :=
  (if off <? 0 then "-" else "+")
  ++ zfill 2 (Z.abs off / 60) ++ ":" ++ zfill 2 (Z.abs off mod 60).

(** [d.isoformat()]. *)
Definition isoformat (d : datetime) : string :=
  zfill 4 (year d) ++ "-" ++ zfill 2 (month d) ++ "-" ++ zfill 2 (day d)
  ++ "T" ++ zfill 2 (hour d) ++ ":" ++ zfill 2 (minute d) ++ ":" ++ zfill 2 (second d)
  ++ (if microsecond d =? 0 then "" else "." ++ zfill 6 (microsecond d))
  ++ (match utcoffset d with Some off => format_offset off | None => "" end).

(** [d.strftime('%d/%m/%y %H:%M:%S')]. *)
Definition strftime (d : datetime) : string :=
  zfill 2 (day d) ++ "/" ++ zfill 2 (month d) ++ "/" ++ zfill 2 (year d mod 100)
  ++ " " ++ zfill 2 (hour d) ++ ":" ++ zfill 2 (minute d) ++ ":" ++ zfill 2 (second d).

End PyDatetime.
Import PyDatetime.


(* ===================================================================== *)
(** * The platform: parsing and the time zone database *)
(* ===================================================================== *)

(** What the handlers take from the Python runtime and from [pytz], and
    what they may rely on: [strptime s] is
    [datetime.strptime(s, '%d/%m/%y %H:%M:%S')], either [str()] of the
    [ValueError] it raises or the parsed value, which is a valid naive
    [datetime] whose year, read from two digits, lies in 1969..2068;
    [hcm_utcoffset d] is the offset from UTC, in minutes, that
    [pytz.timezone('Asia/Ho_Chi_Minh')] gives to the wall-clock time [d]. *)
Class Platform := {
  strptime : string -> string + datetime;
  hcm_utcoffset : datetime -> Z;
  strptime_valid :
    forall s d, strptime s = inr d ->
                wf d /\ 1969 <= year d <= 2068 /\ utcoffset d = None
}.

(** [pytz]'s [tz.localize(d)]: refuses a value that already has a
    [tzinfo], and attaches the zone's offset at that wall-clock time. *)
Definition localize `{Platform} (d : datetime) : outcome datetime :=
  match utcoffset d with
  | Some _ => Raised (Exn ValueError "Not naive datetime (tzinfo is already set)")
  | None =>
      Done (mkdt (year d) (month d) (day d) (hour d) (minute d) (second d)
                 (microsecond d) (Some (hcm_utcoffset d)))
  end.

(** ** A reference platform

    The parser below follows CPython's [_strptime] on ASCII text: the
    format is turned into a regular expression, one group per directive,
    whose alternatives are tried in order with backtracking; the match
    must then cover the whole string, and the fields must make a valid
    date. *)
Module Reference.

Definition code (c : ascii) : Z := Z.of_nat (nat_of_ascii c).

Definition in_range (lo hi : string) (c : ascii) : bool :=
  match lo, hi with
  | String l _, String h _ => (code l <=? code c) && (code c <=? code h)
  | _, _ => false
  end.

Definition digit : ascii -> bool := in_range "0" "9".

Definition digit_value (c : ascii) : Z := code c - 48.

(** [\s] on ASCII. *)
Definition is_space (c : ascii) : bool :=
  let n := code c in
  ((9 <=? n) && (n <=? 13)) || ((28 <=? n) && (n <=? 32)).

(** One alternative of a directive's group: the value read and the rest
    of the input. *)
Definition alternative := string -> option (Z * string).

Definition two (p1 p2 : ascii -> bool) : alternative :=
  fun s =>
    match s with
    | String a (String b rest) =>
        if p1 a && p2 b then Some (10 * digit_value a + digit_value b, rest)
        else None
    | _ => None
    end.

Definition one (p : ascii -> bool) : alternative :=
  fun s =>
    match s with
    | String a rest => if p a then Some (digit_value a, rest) else None
    | _ => None
    end.

Definition blank_then (p : ascii -> bool) : alternative :=
  fun s =>
    match s with
    | String a (String b rest) =>
        if (code a =? 32) && p b then Some (digit_value b, rest) else None
    | _ => None
    end.

Inductive item :=
| Group (alts : list alternative)      (* a directive *)
| Literal (c : ascii)                  (* a character of the format *)
| Spaces.                              (* [\s+], for white space in the format *)

(** [(?P<d>3[0-1]|[1-2]\d|0[1-9]|[1-9]| [1-9])] *)
Definition directive_d : item :=
  Group [two (in_range "3" "3") (in_range "0" "1");
         two (in_range "1" "2") digit;
         two (in_range "0" "0") (in_range "1" "9");
         one (in_range "1" "9");
         blank_then (in_range "1" "9")].

(** [(?P<m>1[0-2]|0[1-9]|[1-9])] *)
Definition directive_m : item :=
  Group [two (in_range "1" "1") (in_range "0" "2");
         two (in_range "0" "0") (in_range "1" "9");
         one (in_range "1" "9")].

(** [(?P<y>\d\d)] *)
Definition directive_y : item := Group [two digit digit].

(** [(?P<H>2[0-3]|[0-1]\d|\d)] *)
Definition directive_H : item :=
  Group [two (in_range "2" "2") (in_range "0" "3");
         two (in_range "0" "1") digit;
         one digit].

(** [(?P<M>[0-5]\d|\d)] *)
Definition directive_M : item :=
  Group [two (in_range "0" "5") digit; one digit].

(** [(?P<S>6[0-1]|[0-5]\d|\d)] *)
Definition directive_S : item :=
  Group [two (in_range "6" "6") (in_range "0" "1");
         two (in_range "0" "5") digit;
         one digit].

(** The compiled format ['%d/%m/%y %H:%M:%S']. *)
Definition format_regex : list item :=
  [directive_d; Literal "/"; directive_m; Literal "/"; directive_y; Spaces;
   directive_H; Literal ":"; directive_M; Literal ":"; directive_S].

(** The ways [\s+] can match at the head of [s], longest first. *)
Fixpoint spaces (s : string) : list string :=
  match s with
  | String c rest => if is_space c then (spaces rest ++ [rest])%list else []
  | EmptyString => []
  end.

(** The ways one item can match at the head of [s], in the order the
    regular expression engine tries them. *)
Definition candidates (it : item) (s : string) : list (list Z * string) :=
  match it with
  | Group alts =>
      flat_map (fun alt => match alt s with
                           | Some (v, rest) => [([v], rest)]
                           | None => []
                           end) alts
  | Literal c =>
      match s with
      | String a rest => if Ascii.eqb a c then [([], rest)] else []
      | EmptyString => []
      end
  | Spaces => map (fun rest => ([], rest)) (spaces s)
  end.

Fixpoint first_success {A B : Type} (f : A -> option B) (l : list A) : option B :=
  match l with
  | [] => None
  | a :: l' => match f a with Some b => Some b | None => first_success f l' end
  end.

(** [re.match]: the first match in backtracking order, with the values
    of the groups and the unmatched rest of the input. *)
Fixpoint regex_match (items : list item) (s : string) : option (list Z * string) :=
  match items with
  | [] => Some ([], s)
  | it :: items' =>
      first_success
        (fun c : list Z * string =>
           match regex_match items' (snd c) with
           | Some (vs, rest) => Some ((fst c ++ vs)%list, rest)
           | None => None
           end)
        (candidates it s)
  end.

(** [repr(s)] for text without quotes, backslashes or control characters. *)
Definition repr (s : string) : string := "'" ++ s ++ "'".

Definition strptime (s : string) : string + datetime :=
  match regex_match format_regex s with
  | Some ([d; m; y; hh; mm; ss], rest) =>
      if negb (String.length rest =? 0)%nat then
        inl ("unconverted data remains: " ++ rest)
      else
        let y := if y <=? 68 then y + 2000 else y + 1900 in
        match check_fields y m d hh mm ss 0 with
        | Some msg => inl msg
        | None => inr (mkdt y m d hh mm ss 0 None)
        end
  | _ =>
      inl ("time data " ++ repr s ++ " does not match format "
           ++ repr "%d/%m/%y %H:%M:%S")
  end.

(** Asia/Ho_Chi_Minh over the years a two-digit year can denote: UTC+8
    until 13 June 1975, UTC+7 since. *)
Definition hcm_utcoffset (d : datetime) : Z :=
  if ymd2ord (year d) (month d) (day d) <? ymd2ord 1975 6 13 then 480 else 420.

End Reference.


(* ===================================================================== *)
(** * The world outside the repository *)
(* ===================================================================== *)

(** Python truthiness of a value that is a string or [None]. *)
Definition truthy (o : option string) : bool :=
  match o with
  | Some s => negb (String.eqb s "")
  | None => false
  end.

(** The attributes of [google.oauth2.credentials.Credentials] the code
    reads, with the values they have when lines 32 and 33 read them in
    one acquisition. *)
Record Credentials := {
  valid : bool;
  expired : bool;
  refresh_token : option string
}.

(** A service handle, bound to the credentials it was built from. *)
Record Service := { service_credentials : Credentials }.

(** The [start] of an event resource: [dateTime] for a timed event,
    [date] for an all-day one. *)
Record EventDateTime := {
  dateTime : option string;
  date : option string
}.

(** An event resource as the remote service returns it, with the keys
    the handlers read; a key may be absent. *)
Record Event := {
  summary : option string;
  start : option EventDateTime
}.

(** The body [add_event] submits. *)
Record EventTime := { et_dateTime : string; et_timeZone : string }.

Record NewEvent := {
  new_summary : string;
  new_location : string;
  new_description : string;
  new_start : EventTime;
  new_end : EventTime;
  new_reminders_useDefault : bool
}.

(** The resource an insertion returns, as a dictionary. *)
Definition CreatedEvent := list (string * string).

Fixpoint dict_get (k : string) (d : list (string * string)) : option string :=
  match d with
  | [] => None
  | (k', v) :: d' => if String.eqb k k' then Some v else dict_get k d'
  end.

(** Truthiness of a dictionary or [None]. *)
Definition truthy_dict (o : option CreatedEvent) : bool :=
  match o with
  | Some (_ :: _) => true
  | _ => false
  end.

(** How the environment answers: the token cache, the OAuth machinery,
    the service construction, the remote calendar and the clock. *)
Record World := {
  (** what [open]/[pickle.load] raise on an existing [token.pickle], if anything *)
  token_load_error : option exn;
  (** [creds.refresh(Request())]: the refreshed credentials *)
  refresh : Credentials -> outcome Credentials;
  (** [InstalledAppFlow.from_client_secrets_file(...).run_local_server(port=0)] *)
  run_local_server : outcome Credentials;
  (** what [open('token.pickle', 'wb')] raises, if anything *)
  token_save_error : option exn;
  (** [build('calendar', 'v3', credentials=creds)] *)
  build : Credentials -> outcome Service;
  (** [service.events().list(calendarId='primary', timeMin, timeMax,
      singleEvents=True, orderBy='startTime').execute()]: the ['items']
      of the answer, when the answer has that key *)
  events_list : Service -> string -> string -> outcome (option (list Event));
  (** [service.events().insert(calendarId='primary', body).execute()] *)
  events_insert : Service -> NewEvent -> outcome CreatedEvent;
  (** successive readings of [datetime.utcnow()] *)
  utcnow : nat -> datetime
}.

(** The calls to the two calendar client wrappers. *)
Inductive Call :=
| Call_get_events (service : Service) (time_min time_max : string)
| Call_add_event (service : Service) (event_name : string)
                 (event_start event_end : datetime).

(** What a run can change: the token cache on disk, the number of clock
    readings taken, the standard output, the messages uttered through
    the dispatcher, and the calls made to the client wrappers. *)
Record State := {
  token_pickle : option Credentials;
  clock : nat;
  stdout : list string;
  messages : list string;
  calls : list Call
}.

(* ===================================================================== *)
(** * State and exceptions *)
(* ===================================================================== *)

Definition M (A : Type) : Type := State -> outcome A * State.

Definition ret {A : Type} (a : A) : M A := fun st => (Done a, st).

Definition bind {A B : Type} (m : M A) (k : A -> M B) : M B :=
  fun st =>
    match m st with
    | (Done a, st') => k a st'
    | (Raised e, st') => (Raised e, st')
    end.

Definition raise {A : Type} (e : exn) : M A := fun st => (Raised e, st).

Definition lift {A : Type} (o : outcome A) : M A := fun st => (o, st).

(** [try: body except Exception as e: handler e]. *)
Definition try_except {A : Type} (body : M A) (handler : exn -> M A) : M A :=
  fun st =>
    match body st with
    | (Done a, st') => (Done a, st')
    | (Raised e, st') => handler e st'
    end.

Declare Scope monad_scope.
Delimit Scope monad_scope with monad.
Notation "x <- m ;; k" := (bind m (fun x => k))
  (at level 61, m at next level, right associativity) : monad_scope.
Notation "m ;; k" := (bind m (fun _ => k))
  (at level 61, right associativity) : monad_scope.
Open Scope monad_scope.

Definition print (line : string) : M unit :=
  fun st => (Done tt, {| token_pickle := token_pickle st; clock := clock st;
                         stdout := stdout st ++ [line];
                         messages := messages st; calls := calls st |}).

(** [dispatcher.utter_message(text=...)]. *)
Definition utter_message (text : string) : M unit :=
  fun st => (Done tt, {| token_pickle := token_pickle st; clock := clock st;
                         stdout := stdout st;
                         messages := messages st ++ [text]; calls := calls st |}).

Definition record_call (c : Call) : M unit :=
  fun st => (Done tt, {| token_pickle := token_pickle st; clock := clock st;
                         stdout := stdout st;
                         messages := messages st; calls := calls st ++ [c] |}).

Definition write_token (c : Credentials) : M unit :=
  fun st => (Done tt, {| token_pickle := Some c; clock := clock st;
                         stdout := stdout st;
                         messages := messages st; calls := calls st |}).

Definition read_token : M (option Credentials) :=
  fun st => (Done (token_pickle st), st).

(** [datetime.utcnow()]. *)
Definition now (w : World) : M datetime :=
  fun st => (Done (utcnow w (clock st)),
             {| token_pickle := token_pickle st; clock := S (clock st);
                stdout := stdout st;
                messages := messages st; calls := calls st |}).

(* ===================================================================== *)
(** * The calendar client *)
(* ===================================================================== *)

Section Client.

Context {platform : Platform} (w : World).

(** The interactive authorization flow. *)
Definition authorize : M Credentials :=
  creds <- lift (run_local_server w) ;;
  print "Obtained new credentials" ;;
  ret creds.

(** Save the credentials for the next run. *)
Definition save_token (creds : Credentials) : M unit :=
  match token_save_error w with
  | Some e => raise e
  | None =>
      write_token creds ;;
      print "Saved new credentials to token.pickle"
  end.

(** The statements of [get_calendar_service] before its [try]: the
    cached credentials when they are valid, otherwise refreshed or newly
    obtained ones, saved back to the cache. *)
Definition load_credentials : M Credentials :=
  cached <- read_token ;;
  creds <- match cached with
           | Some creds =>
               match token_load_error w with
               | Some e => raise e
               | None => print "Loaded credentials from token.pickle" ;; ret (Some creds)
               end
           | None => ret None
           end ;;
  (* If no valid credentials, let the user log in *)
  match creds with
  | Some creds =>
      if valid creds then ret creds
      else
        creds <- (if expired creds && truthy (refresh_token creds) then
                    creds <- lift (refresh w creds) ;;
                    print "Credentials refreshed" ;;
                    ret creds
                  else authorize) ;;
        save_token creds ;;
        ret creds
  | None =>
      creds <- authorize ;;
      save_token creds ;;
      ret creds
  end.

Definition get_calendar_service : M (option Service) :=
  creds <- load_credentials ;;
  try_except
    (service <- lift (build w creds) ;;
     ret (Some service))
    (fun e =>
       print ("An error occurred while building the service: " ++ exn_str e) ;;
       ret None).

(** The dictionary [new_event] that [add_event] builds. *)
Definition new_event (event_name : string) (event_start event_end : datetime)
  : NewEvent :=
  {| new_summary := event_name;
     new_location := "Default Location";
     new_description := "Automatically added event";
     new_start := {| et_dateTime := isoformat event_start;
                     et_timeZone := "Asia/Ho_Chi_Minh" |};
     new_end := {| et_dateTime := isoformat event_end;
                   et_timeZone := "Asia/Ho_Chi_Minh" |};
     new_reminders_useDefault := true |}.

(** Adds a new event to Google Calendar. *)
Definition add_event (service : Service) (event_name : string)
           (event_start event_end : datetime) : M (option CreatedEvent) :=
  record_call (Call_add_event service event_name event_start event_end) ;;
  try_except
    (created_event <- lift (events_insert w service
                              (new_event event_name event_start event_end)) ;;
     print ("Created event: " ++ str_opt (dict_get "htmlLink" created_event)) ;;
     ret (Some created_event))
    (fun error =>
       if is_HttpError error then
         print ("An error occurred while adding the event: " ++ exn_str error) ;;
         ret None
       else raise error).

(** Retrieves events within the specified time range. *)
Definition get_events (service : Service) (time_min time_max : string)
  : M (list Event) :=
  record_call (Call_get_events service time_min time_max) ;;
  try_except
    (events_result <- lift (events_list w service time_min time_max) ;;
     let events := match events_result with
                   | Some items => items
                   | None => []
                   end in
     ret events)
    (fun error =>
       if is_HttpError error then
         print ("An error occurred while fetching events: " ++ exn_str error) ;;
         ret []
       else raise error).

End Client.

(* ===================================================================== *)
(** * The action handlers *)
(* ===================================================================== *)

(** The conversation state a handler reads: [tracker.get_slot(name)] is
    the text of a slot, or [None] when the slot is not set. *)
Record Tracker := { get_slot : string -> option string }.

(** The text of a slot that passed the truthiness test. *)
Definition text (slot : option string) : string :=
  match slot with
  | Some s => s
  | None => ""
  end.

(** The events a handler returns to the dialogue manager. *)
Inductive RasaEvent := AllSlotsReset.

(** [conflicting_event['start'].get('dateTime', conflicting_event['start'].get('date'))],
    as an f-string prints it. *)
Definition start_of (event : Event) : outcome string :=
  match start event with
  | None => Raised (key_error "start")
  | Some s =>
      Done (str_opt (match dateTime s with
                     | Some v => Some v
                     | None => date s
                     end))
  end.

Module AddEventToCalendar.
Section Run.

Context {platform : Platform} (w : World).

Definition name : string := "action_add_event".

(** The body of the [try] statement; [Some l] when it executes
    [return l], [None] when control reaches its end. *)
Definition attempt (event_name time_str : string) : M (option (list RasaEvent)) :=
  (* Parse the time slot to a datetime object *)
  event_start_time <- match strptime time_str with
                      | inr d => ret d
                      | inl msg => raise (Exn ValueError msg)
                      end ;;
  (* Assign timezone to the datetime object *)
  event_start_time <- lift (localize event_start_time) ;;
  (* Calculate event end time (1 hour duration) *)
  event_end_time <- lift (add_timedelta event_start_time 0 3600) ;;
  (* Define time range for conflict checking (same as event time) *)
  let time_min := isoformat event_start_time in
  let time_max := isoformat event_end_time in
  (* Initialize Google Calendar API *)
  service <- get_calendar_service w ;;
  match service with
  | None =>
      utter_message "Failed to initialize Google Calendar service." ;;
      ret (Some [AllSlotsReset])
  | Some service =>
      (* Retrieve existing events in the desired time slot *)
      existing_events <- get_events w service time_min time_max ;;
      match existing_events with
      | conflicting_event :: _ =>
          event_start <- lift (start_of conflicting_event) ;;
          conflicting_summary <- match summary conflicting_event with
                                 | Some s => ret s
                                 | None => raise (key_error "summary")
                                 end ;;
          utter_message
            ("Cannot create new event because the time slot is already taken by '"
             ++ conflicting_summary ++ "' at " ++ event_start ++ ".") ;;
          ret None
      | [] =>
          (* No conflict, proceed to add the event *)
          created_event <- add_event w service event_name
                                     event_start_time event_end_time ;;
          (if truthy_dict created_event then
             utter_message
               ("Event '" ++ event_name
                ++ "' successfully added to your calendar from "
                ++ strftime event_start_time ++ " to "
                ++ strftime event_end_time ++ ".")
           else
             utter_message "Failed to add the event due to an internal error.") ;;
          ret None
      end
  end.

Definition run (tracker : Tracker) : M (list RasaEvent) :=
  let event_name := get_slot tracker "event" in
  let time_str := get_slot tracker "time" in
  if negb (truthy event_name) || negb (truthy time_str) then
    utter_message "Please provide both the event name and time." ;;
    ret [AllSlotsReset]
  else
    returned <-
      try_except (attempt (text event_name) (text time_str))
        (fun e =>
           (if is_ValueError e then
              utter_message
                ("Time parsing error: " ++ exn_str e
                 ++ ". Please ensure the time is in 'DD/MM/YY HH:MM:SS' format.")
            else
              (* Handle unexpected errors *)
              utter_message ("An unexpected error occurred: " ++ exn_str e)) ;;
           ret None) ;;
    match returned with
    | Some events => ret events
    | None =>
        (* Reset slots after execution *)
        ret [AllSlotsReset]
    end.

End Run.
End AddEventToCalendar.

Module GetEvent.
Section Run.

Context {platform : Platform} (w : World).

Definition name : string := "action_get_event".

(** The loop over the events: one line per event, or the [KeyError] of
    the first event it cannot read. *)
Fixpoint format_events (events : list Event) : outcome (list string) :=
  match events with
  | [] => Done []
  | event :: events' =>
      match start_of event with
      | Raised e => Raised e
      | Done start =>
          let summary := match summary event with
                         | Some s => s
                         | None => "No Title"
                         end in
          match format_events events' with
          | Raised e => Raised e
          | Done lines => Done ((start ++ ": " ++ summary) :: lines)
          end
      end
  end.

Definition attempt : M (option (list RasaEvent)) :=
  service <- get_calendar_service w ;;
  match service with
  | None =>
      utter_message "Failed to initialize Google Calendar service." ;;
      ret (Some [])
  | Some service =>
      now_ <- now w ;;
      let time_min := isoformat now_ ++ "Z" in
      (* Fetch events for the next year to ensure coverage *)
      now_ <- now w ;;
      next_year <- lift (add_timedelta now_ 365 0) ;;
      events <- get_events w service time_min (isoformat next_year ++ "Z") ;;
      match events with
      | [] =>
          utter_message "You have no upcoming events." ;;
          ret (Some [])
      | _ :: _ =>
          lines <- lift (format_events events) ;;
          let events_message := join nl lines in
          utter_message ("Your upcoming events:" ++ nl ++ events_message) ;;
          ret None
      end
  end.

Definition run (tracker : Tracker) : M (list RasaEvent) :=
  returned <-
    try_except attempt
      (fun e =>
         utter_message ("An error occurred while fetching events: " ++ exn_str e) ;;
         ret None) ;;
  match returned with
  | Some events => ret events
  | None => ret []
  end.

End Run.
End GetEvent.


(* ===================================================================== *)
(** * Vocabulary of the properties and reference scenarios *)
(* ===================================================================== *)

(** The value [get_events] returns; it does not depend on the state. *)
Definition listed (w : World) (service : Service) (time_min time_max : string)
  : outcome (list Event) :=
  match events_list w service time_min time_max with
  | Done (Some items) => Done items
  | Done None => Done []
  | Raised error => if is_HttpError error then Done [] else Raised error
  end.

(** The value [add_event] returns. *)
Definition inserted (w : World) (service : Service) (event_name : string)
           (event_start event_end : datetime) : outcome (option CreatedEvent) :=
  match events_insert w service (new_event event_name event_start event_end) with
  | Done created => Done (Some created)
  | Raised error => if is_HttpError error then Done None else Raised error
  end.

(** The messages of the add handler. *)
Definition confirmation (event_name : string) (event_start event_end : datetime)
  : string :=
  "Event '" ++ event_name ++ "' successfully added to your calendar from "
  ++ strftime event_start ++ " to " ++ strftime event_end ++ ".".

Definition conflict_message (conflicting_summary event_start : string) : string :=
  "Cannot create new event because the time slot is already taken by '"
  ++ conflicting_summary ++ "' at " ++ event_start ++ ".".

Definition service_failure : string :=
  "Failed to initialize Google Calendar service.".

Definition insert_failure : string :=
  "Failed to add the event due to an internal error.".

(** What the add handler utters for an exception it catches. *)
Definition add_error_message (e : exn) : string :=
  if is_ValueError e then
    "Time parsing error: " ++ exn_str e
    ++ ". Please ensure the time is in 'DD/MM/YY HH:MM:SS' format."
  else "An unexpected error occurred: " ++ exn_str e.

(** What the get handler utters for an exception it catches. *)
Definition get_error_message (e : exn) : string :=
  "An error occurred while fetching events: " ++ exn_str e.

Definition no_events : string := "You have no upcoming events.".

Definition upcoming (lines : list string) : string :=
  "Your upcoming events:" ++ nl ++ join nl lines.

(** The state after uttering [text]. *)
Definition uttered (text : string) (st : State) : State :=
  snd (utter_message text st).

(** The line the get handler writes for an event. *)
Definition event_line (event : Event) : string :=
  match start_of event with Done s => s | Raised _ => "" end
  ++ ": " ++ match summary event with Some s => s | None => "No Title" end.

Definition has_start (event : Event) : Prop := start event <> None.

(** [sub] occurs in [s]. *)
Definition contains (s sub : string) : Prop :=
  exists before after, s = before ++ sub ++ after.

Definition tracker_of (event time : option string) : Tracker :=
  {| get_slot := fun slot =>
       if String.eqb slot "event" then event
       else if String.eqb slot "time" then time
       else None |}.

(** A fresh run: no token cache, nothing printed, uttered or called yet. *)
Definition fresh : State :=
  {| token_pickle := None; clock := 0; stdout := []; messages := []; calls := [] |}.

(** A run that finds valid cached credentials. *)
Definition cached_credentials : Credentials :=
  {| valid := true; expired := false; refresh_token := Some "1//refresh" |}.

Definition logged_in : State :=
  {| token_pickle := Some cached_credentials;
     clock := 0; stdout := []; messages := []; calls := [] |}.

(** A world in which everything works and the calendar is empty. *)
Definition quiet_world : World :=
  {| token_load_error := None;
     refresh := fun c => Done c;
     run_local_server := Done cached_credentials;
     token_save_error := None;
     build := fun c => Done {| service_credentials := c |};
     events_list := fun _ _ _ => Done (Some []);
     events_insert := fun _ body =>
       Done [("id", "e1"); ("htmlLink", "https://calendar.example/e1");
             ("summary", new_summary body)];
     utcnow := fun _ => mkdt 2024 5 31 8 0 0 250000 None |}.

(** The same world with other answers from the remote calendar. *)
Definition with_calendar (w : World)
           (list_answer : outcome (option (list Event)))
           (insert_answer : outcome CreatedEvent) : World :=
  {| token_load_error := token_load_error w;
     refresh := refresh w;
     run_local_server := run_local_server w;
     token_save_error := token_save_error w;
     build := build w;
     events_list := fun _ _ _ => list_answer;
     events_insert := fun _ _ => insert_answer;
     utcnow := utcnow w |}.

(** A world with no client secret file and a build that fails. *)
Definition broken_world : World :=
  {| token_load_error := None;
     refresh := fun c => Done c;
     run_local_server :=
       Raised (Exn OtherError
                   "[Errno 2] No such file or directory: 'credentials.json'");
     token_save_error := None;
     build := fun _ => Raised (Exn OtherError "name: calendar  version: v3");
     events_list := fun _ _ _ => Done (Some []);
     events_insert := fun _ _ => Done [];
     utcnow := fun _ => mkdt 2024 5 31 8 0 0 250000 None |}.

Definition team_sync : Tracker :=
  tracker_of (Some "Team Sync") (Some "01/06/24 09:00:00").

Definition standup : Event :=
  {| summary := Some "Standup";
     start := Some {| dateTime := Some "2024-06-01T09:30:00+07:00"; date := None |} |}.

Definition holiday : Event :=
  {| summary := Some "Holiday";
     start := Some {| dateTime := None; date := Some "2024-06-02" |} |}.

Definition startless : Event := {| summary := Some "Lunch"; start := None |}.

Definition untitled : Event :=
  {| summary := None;
     start := Some {| dateTime := Some "2024-06-01T09:30:00+07:00"; date := None |} |}.


Definition the_service : Service := {| service_credentials := cached_credentials |}.

Definition nine : datetime := mkdt 2024 6 1 9 0 0 0 None.
Definition nine_hcm : datetime := mkdt 2024 6 1 9 0 0 0 (Some 420).
Definition ten_hcm : datetime := mkdt 2024 6 1 10 0 0 0 (Some 420).

Definition http_403 : exn := Exn HttpError "<HttpError 403 Forbidden>".

(** A failure of the transport, which is no [HttpError]. *)
Definition timed_out : exn := Exn OtherError "timed out".

(* ===================================================================== *)
(** * Dates: ordinals and civil dates *)
(* ===================================================================== *)

Section Ordinals.

Definition month_day_check (leap : bool) (k : nat) : bool :=
  let n := Z.of_nat k in
  let '(m, d) := month_day leap n in
  (1 <=? m) && (m <=? 12) && (1 <=? d)
  && (d <=? DAYS_IN_MONTH m + (if (m =? 2) && leap then 1 else 0))
  && (DAYS_BEFORE_MONTH m + (if (2 <? m) && leap then 1 else 0) + d =? n + 1).

Lemma month_day_table (leap : bool) :
  forallb (month_day_check leap) (seq 0 (if leap then 366 else 365)) = true.
Proof. destruct leap; vm_compute; reflexivity. Qed.

Lemma month_day_spec (leap : bool) (n : Z) :
  0 <= n < (if leap then 366 else 365) ->
  let '(m, d) := month_day leap n in
  1 <= m <= 12 /\
  1 <= d <= DAYS_IN_MONTH m + (if (m =? 2) && leap then 1 else 0) /\
  DAYS_BEFORE_MONTH m + (if (2 <? m) && leap then 1 else 0) + d = n + 1.
Proof.
  intros Hn.
  pose proof (month_day_table leap) as T.
  rewrite forallb_forall in T.
  specialize (T (Z.to_nat n)).
  assert (Hin : In (Z.to_nat n) (seq 0 (if leap then 366 else 365))).
  { apply in_seq. destruct leap; lia. }
  specialize (T Hin). unfold month_day_check in T.
  rewrite Z2Nat.id in T by lia.
  destruct (month_day leap n) as [m d].
  repeat rewrite andb_true_iff in T.
  destruct T as [[[[A B] C] D] E].
  lia.
Qed.

Lemma is_leap_decomposed (q n100 n4 n1 : Z) :
  0 <= n100 <= 3 -> 0 <= n4 <= 24 -> 0 <= n1 <= 3 ->
  is_leap (q * 400 + 1 + n100 * 100 + n4 * 4 + n1)
  = (n1 =? 3) && (negb (n4 =? 24) || (n100 =? 3)).
Proof.
  intros H100 H4 H1. unfold is_leap.
  set (y := q * 400 + 1 + n100 * 100 + n4 * 4 + n1).
  assert (E4 : y mod 4 = (n1 + 1) mod 4).
  { unfold y. replace (q * 400 + 1 + n100 * 100 + n4 * 4 + n1)
      with ((n1 + 1) + (q * 100 + n100 * 25 + n4) * 4) by lia.
    apply Z.mod_add. lia. }
  assert (E100 : y mod 100 = (n4 * 4 + n1 + 1) mod 100).
  { unfold y. replace (q * 400 + 1 + n100 * 100 + n4 * 4 + n1)
      with ((n4 * 4 + n1 + 1) + (q * 4 + n100) * 100) by lia.
    apply Z.mod_add. lia. }
  assert (E400 : y mod 400 = (n100 * 100 + n4 * 4 + n1 + 1) mod 400).
  { unfold y. replace (q * 400 + 1 + n100 * 100 + n4 * 4 + n1)
      with ((n100 * 100 + n4 * 4 + n1 + 1) + q * 400) by lia.
    apply Z.mod_add. lia. }
  rewrite E4, E100, E400. clear E4 E100 E400 y.
  destruct (Z.eqb_spec n1 3) as [->|N1].
  - replace ((3 + 1) mod 4) with 0 by reflexivity. simpl.
    destruct (Z.eqb_spec n4 24) as [->|N4].
    + replace ((24 * 4 + 3 + 1) mod 100) with 0 by reflexivity. simpl.
      destruct (Z.eqb_spec n100 3) as [->|N100].
      * reflexivity.
      * apply Z.eqb_neq. intro E.
        apply Z.mod_divide in E; [|lia]. destruct E as [k E]. lia.
    + simpl. rewrite Z.mod_small by lia.
      destruct (Z.eqb_spec (n4 * 4 + 3 + 1) 0); [lia|reflexivity].
  - simpl. rewrite Z.mod_small by lia.
    destruct (Z.eqb_spec (n1 + 1) 0); [lia|reflexivity].
Qed.

Lemma days_before_year_decomposed (q n100 n4 n1 : Z) :
  0 <= n100 <= 3 -> 0 <= n4 <= 24 -> 0 <= n1 <= 3 ->
  days_before_year (q * 400 + 1 + n100 * 100 + n4 * 4 + n1)
  = 146097 * q + 36524 * n100 + 1461 * n4 + 365 * n1.
Proof.
  intros H100 H4 H1. unfold days_before_year.
  set (p := q * 400 + 1 + n100 * 100 + n4 * 4 + n1 - 1).
  assert (D4 : p / 4 = q * 100 + n100 * 25 + n4).
  { symmetry. apply Z.div_unique with (r := n1); unfold p; lia. }
  assert (D100 : p / 100 = q * 4 + n100).
  { symmetry. apply Z.div_unique with (r := n4 * 4 + n1); unfold p; lia. }
  assert (D400 : p / 400 = q).
  { symmetry. apply Z.div_unique with (r := n100 * 100 + n4 * 4 + n1); unfold p; lia. }
  rewrite D4, D100, D400. unfold p. lia.
Qed.

Lemma days_in_month_table (y m : Z) :
  1 <= m <= 12 ->
  days_in_month y m = DAYS_IN_MONTH m + (if (m =? 2) && is_leap y then 1 else 0).
Proof.
  intros Hm. unfold days_in_month.
  assert (C : m = 1 \/ m = 2 \/ m = 3 \/ m = 4 \/ m = 5 \/ m = 6 \/ m = 7 \/
              m = 8 \/ m = 9 \/ m = 10 \/ m = 11 \/ m = 12) by lia.
  repeat (destruct C as [-> | C]; [simpl; try destruct (is_leap y); reflexivity|]).
  subst m. reflexivity.
Qed.

(** [_ord2ymd] inverts [_ymd2ord] and yields a valid civil date. *)
Lemma ord2ymd_spec (n : Z) :
  1 <= n ->
  let '(y, m, d) := ord2ymd n in
  ymd2ord y m d = n /\ 1 <= y /\ 1 <= m <= 12 /\ 1 <= d <= days_in_month y m.
Proof.
  intros Hn. unfold ord2ymd.
  pose proof (Z.div_mod (n - 1) 146097 ltac:(lia)) as E400.
  pose proof (Z.mod_pos_bound (n - 1) 146097 ltac:(lia)) as B400.
  assert (Q400 : 0 <= (n - 1) / 146097) by (apply Z.div_pos; lia).
  set (q := (n - 1) / 146097) in *.
  set (r := (n - 1) mod 146097) in *.
  pose proof (Z.div_mod r 36524 ltac:(lia)) as E100.
  pose proof (Z.mod_pos_bound r 36524 ltac:(lia)) as B100.
  assert (Q100 : 0 <= r / 36524 <= 4).
  { split; [apply Z.div_pos; lia|]. apply Z.lt_succ_r, Z.div_lt_upper_bound; lia. }
  set (n100 := r / 36524) in *.
  set (r2 := r mod 36524) in *.
  pose proof (Z.div_mod r2 1461 ltac:(lia)) as E4.
  pose proof (Z.mod_pos_bound r2 1461 ltac:(lia)) as B4.
  assert (Q4 : 0 <= r2 / 1461 <= 24).
  { split; [apply Z.div_pos; lia|]. apply Z.lt_succ_r, Z.div_lt_upper_bound; lia. }
  set (n4 := r2 / 1461) in *.
  set (r3 := r2 mod 1461) in *.
  pose proof (Z.div_mod r3 365 ltac:(lia)) as E1.
  pose proof (Z.mod_pos_bound r3 365 ltac:(lia)) as B1.
  assert (Q1 : 0 <= r3 / 365 <= 4).
  { split; [apply Z.div_pos; lia|]. apply Z.lt_succ_r, Z.div_lt_upper_bound; lia. }
  set (n1 := r3 / 365) in *.
  set (r4 := r3 mod 365) in *.
  destruct ((n1 =? 4) || (n100 =? 4)) eqn:Last.
  - (* the last day of a leap year *)
    apply orb_true_iff in Last.
    assert (exists a b,
               0 <= a <= 3 /\ 0 <= b <= 24 /\ (b <> 24 \/ a = 3) /\
               q * 400 + 1 + n100 * 100 + n4 * 4 + n1 - 1
               = q * 400 + 1 + a * 100 + b * 4 + 3 /\
               n = 146097 * q + 36524 * a + 1461 * b + 1461) as (a & b & Ha & Hb & Hab & Ey & En).
    { destruct (Z.eq_dec n100 4) as [E|E].
      - exists 3, 24. lia.
      - destruct Last as [L|L]; apply Z.eqb_eq in L; [|contradiction].
        exists n100, n4. lia. }
    rewrite Ey. unfold ymd2ord, days_before_month.
    rewrite days_in_month_table by lia.
    rewrite is_leap_decomposed by lia.
    rewrite days_before_year_decomposed by lia.
    assert (Leap : (3 =? 3) && (negb (b =? 24) || (a =? 3)) = true).
    { simpl. destruct Hab as [Hb'|Ha'].
      - apply Z.eqb_neq in Hb'. rewrite Hb'. reflexivity.
      - apply Z.eqb_eq in Ha'. rewrite Ha'. apply orb_true_r. }
    rewrite Leap.
    change (DAYS_BEFORE_MONTH 12) with 334. change (DAYS_IN_MONTH 12) with 31.
    change (2 <? 12) with true. change (12 =? 2) with false.
    cbv [andb]. lia.
  - apply orb_false_iff in Last. destruct Last as [L1 L100].
    apply Z.eqb_neq in L1. apply Z.eqb_neq in L100.
    pose proof (is_leap_decomposed q n100 n4 n1 ltac:(lia) ltac:(lia) ltac:(lia)) as Leap.
    pose proof (days_before_year_decomposed q n100 n4 n1
                  ltac:(lia) ltac:(lia) ltac:(lia)) as DBY.
    set (y := q * 400 + 1 + n100 * 100 + n4 * 4 + n1) in *.
    rewrite <- Leap.
    pose proof (month_day_spec (is_leap y) r4) as MD.
    destruct (month_day (is_leap y) r4) as [m d].
    destruct MD as (Hm & Hd & Hsum); [destruct (is_leap y); lia|].
    unfold ymd2ord, days_before_month.
    rewrite days_in_month_table by lia.
    rewrite DBY.
    assert (Hy : y = q * 400 + 1 + n100 * 100 + n4 * 4 + n1) by reflexivity.
    clearbody y. lia.
Qed.

End Ordinals.

(* ===================================================================== *)
(** * The reference parser yields valid dates *)
(* ===================================================================== *)

Section ReferenceParser.
Import Reference.

Lemma first_success_inv {A B : Type} (f : A -> option B) (l : list A) (b : B) :
  first_success f l = Some b -> exists a, In a l /\ f a = Some b.
Proof.
  induction l as [|a l IH]; simpl; [discriminate|].
  destruct (f a) eqn:E.
  - intros [= <-]. exists a. auto.
  - intros H. destruct (IH H) as (a' & Hin & Ha'). exists a'. auto.
Qed.

Lemma regex_match_cons it items s vs rest :
  regex_match (it :: items) s = Some (vs, rest) ->
  exists c vs',
    In c (candidates it s) /\ regex_match items (snd c) = Some (vs', rest)
    /\ vs = (fst c ++ vs')%list.
Proof.
  simpl. intros H. apply first_success_inv in H. destruct H as (c & Hin & Hc).
  destruct (regex_match items (snd c)) as [[vs' rest']|] eqn:E; [|discriminate].
  injection Hc as <- <-. exists c, vs'. auto.
Qed.

Lemma candidates_group alts s c :
  In c (candidates (Group alts) s) ->
  exists alt v, In alt alts /\ alt s = Some (v, snd c) /\ fst c = [v].
Proof.
  simpl. rewrite in_flat_map. intros (alt & Hin & Hc).
  destruct (alt s) as [[v rest]|] eqn:E; simpl in Hc; [|contradiction].
  destruct Hc as [<-|[]]. exists alt, v. auto.
Qed.

Lemma candidates_no_group it s c :
  (exists ch, it = Literal ch) \/ it = Spaces ->
  In c (candidates it s) -> fst c = [].
Proof.
  intros [[ch ->]| ->]; simpl.
  - destruct s as [|a rest]; [contradiction|].
    destruct (Ascii.eqb a ch); [|contradiction]. intros [<-|[]]. reflexivity.
  - rewrite in_map_iff. intros (r & <- & _). reflexivity.
Qed.

Lemma digit_value_range c : digit c = true -> 0 <= digit_value c <= 9.
Proof.
  unfold digit, in_range, digit_value.
  change (code "0") with 48. change (code "9") with 57.
  generalize (code c). intros n. rewrite andb_true_iff, !Z.leb_le. lia.
Qed.

Lemma two_digits_range s v rest :
  two digit digit s = Some (v, rest) -> 0 <= v <= 99.
Proof.
  unfold two. destruct s as [|a [|b r]]; try discriminate.
  destruct (digit a) eqn:Da; [|discriminate].
  destruct (digit b) eqn:Db; [|discriminate].
  cbv [andb]. intros H.
  assert (Hv : v = 10 * digit_value a + digit_value b) by congruence.
  apply digit_value_range in Da. apply digit_value_range in Db. lia.
Qed.

(** The groups of a match of the format: six values, the third of which
    is a two-digit number. *)
Lemma format_regex_groups s vs rest :
  regex_match format_regex s = Some (vs, rest) ->
  exists d m y hh mm ss, vs = [d; m; y; hh; mm; ss] /\ 0 <= y <= 99.
Proof.
  unfold format_regex. intros H.
  apply regex_match_cons in H. destruct H as (c1 & v1 & I1 & H & ->).
  apply candidates_group in I1. destruct I1 as (_ & d & _ & _ & ->).
  apply regex_match_cons in H. destruct H as (c2 & v2 & I2 & H & ->).
  apply candidates_no_group in I2; [|left; eauto]. rewrite I2.
  apply regex_match_cons in H. destruct H as (c3 & v3 & I3 & H & ->).
  apply candidates_group in I3. destruct I3 as (_ & m & _ & _ & ->).
  apply regex_match_cons in H. destruct H as (c4 & v4 & I4 & H & ->).
  apply candidates_no_group in I4; [|left; eauto]. rewrite I4.
  apply regex_match_cons in H. destruct H as (c5 & v5 & I5 & H & ->).
  apply candidates_group in I5. destruct I5 as (alt & y & Ialt & Hy & ->).
  destruct Ialt as [<-|[]]. apply two_digits_range in Hy.
  apply regex_match_cons in H. destruct H as (c6 & v6 & I6 & H & ->).
  apply candidates_no_group in I6; [|right; reflexivity]. rewrite I6.
  apply regex_match_cons in H. destruct H as (c7 & v7 & I7 & H & ->).
  apply candidates_group in I7. destruct I7 as (_ & hh & _ & _ & ->).
  apply regex_match_cons in H. destruct H as (c8 & v8 & I8 & H & ->).
  apply candidates_no_group in I8; [|left; eauto]. rewrite I8.
  apply regex_match_cons in H. destruct H as (c9 & v9 & I9 & H & ->).
  apply candidates_group in I9. destruct I9 as (_ & mm & _ & _ & ->).
  apply regex_match_cons in H. destruct H as (c10 & v10 & I10 & H & ->).
  apply candidates_no_group in I10; [|left; eauto]. rewrite I10.
  apply regex_match_cons in H. destruct H as (c11 & v11 & I11 & H & ->).
  apply candidates_group in I11. destruct I11 as (_ & ss & _ & _ & ->).
  simpl in H. injection H as <- _.
  exists d, m, y, hh, mm, ss. split; [reflexivity|exact Hy].
Qed.

Lemma reference_strptime_valid s d :
  Reference.strptime s = inr d ->
  wf d /\ 1969 <= year d <= 2068 /\ utcoffset d = None.
Proof.
  unfold Reference.strptime.
  destruct (regex_match format_regex s) as [[vs rest]|] eqn:E; [|discriminate].
  apply format_regex_groups in E.
  destruct E as (dd & m & y & hh & mm & ss & -> & Hy).
  destruct (negb (String.length rest =? 0)%nat); [discriminate|].
  destruct (check_fields _ m dd hh mm ss 0) eqn:C; [discriminate|].
  intros [= <-]. unfold wf. simpl. split; [exact C|]. split; [|reflexivity].
  destruct (Z.leb_spec y 68); lia.
Qed.

End ReferenceParser.

(** CPython and [pytz] over ASCII input. *)
Definition reference_platform : Platform :=
  {| strptime := Reference.strptime;
     hcm_utcoffset := Reference.hcm_utcoffset;
     strptime_valid := reference_strptime_valid |}.


(* ===================================================================== *)
(** * Dates: adding a duration *)
(* ===================================================================== *)

Section DateArithmetic.

Lemma wf_ranges (d : datetime) :
  wf d ->
  1 <= year d <= MAXYEAR /\ 1 <= month d <= 12 /\
  1 <= day d <= days_in_month (year d) (month d) /\
  0 <= hour d <= 23 /\ 0 <= minute d <= 59 /\ 0 <= second d <= 59 /\
  0 <= microsecond d <= 999999.
Proof.
  unfold wf, check_fields.
  repeat match goal with
         | |- context [negb (?a && ?b)] =>
             destruct a eqn:?; destruct b eqn:?; cbn [andb negb]; try discriminate
         end.
  intros _.
  repeat match goal with
         | H : (_ <=? _) = true |- _ => apply Z.leb_le in H
         end.
  lia.
Qed.

Lemma days_before_year_bounds (y : Z) :
  1 <= y <= 9998 -> 0 <= days_before_year y <= 3651428.
Proof.
  intros Hy. unfold days_before_year.
  assert (0 <= (y - 1) / 4 <= 2499).
  { split; [apply Z.div_pos; lia|]. apply Z.lt_succ_r, Z.div_lt_upper_bound; lia. }
  assert (0 <= (y - 1) / 400 <= 24).
  { split; [apply Z.div_pos; lia|]. apply Z.lt_succ_r, Z.div_lt_upper_bound; lia. }
  assert (0 <= (y - 1) / 100 <= (y - 1) / 4).
  { split; [apply Z.div_pos; lia|].
    apply Z.div_le_lower_bound; [lia|].
    pose proof (Z.mul_div_le (y - 1) 100 ltac:(lia)).
    pose proof (Z.div_pos (y - 1) 100 ltac:(lia) ltac:(lia)). lia. }
  lia.
Qed.

Lemma day_of_year_bounds (y m d : Z) :
  1 <= m <= 12 -> 1 <= d <= days_in_month y m ->
  1 <= days_before_month y m + d <= 366.
Proof.
  intros Hm. rewrite days_in_month_table by assumption.
  unfold days_before_month.
  assert (C : m = 1 \/ m = 2 \/ m = 3 \/ m = 4 \/ m = 5 \/ m = 6 \/ m = 7 \/
              m = 8 \/ m = 9 \/ m = 10 \/ m = 11 \/ m = 12) by lia.
  repeat (destruct C as [-> | C];
          [destruct (is_leap y);
           cbn [DAYS_BEFORE_MONTH DAYS_IN_MONTH Z.eqb Z.ltb Z.compare
                Pos.compare Pos.compare_cont Pos.eqb andb]; lia|]).
  subst m. destruct (is_leap y);
    cbn [DAYS_BEFORE_MONTH DAYS_IN_MONTH Z.eqb Z.ltb Z.compare
         Pos.compare Pos.compare_cont Pos.eqb andb]; lia.
Qed.

Lemma toordinal_bounds (d : datetime) :
  wf d -> year d <= 9998 -> 1 <= toordinal d <= MAXORDINAL - 1.
Proof.
  intros Hwf Hy. apply wf_ranges in Hwf.
  destruct Hwf as (Y & Mo & D & _).
  unfold toordinal, ymd2ord, MAXORDINAL.
  pose proof (days_before_year_bounds (year d) ltac:(lia)).
  pose proof (day_of_year_bounds (year d) (month d) (day d) Mo D).
  lia.
Qed.

(** A sum that does not overflow denotes the instant that many seconds
    later, in the same zone. *)
Lemma add_timedelta_instant (d d' : datetime) (days seconds : Z) :
  add_timedelta d days seconds = Done d' ->
  utc_seconds d' = utc_seconds d + 86400 * days + seconds
  /\ utcoffset d' = utcoffset d.
Proof.
  unfold add_timedelta.
  set (total := hour d * 3600 + minute d * 60 + second d + seconds).
  set (delta_days := toordinal d + days + total / 86400).
  destruct ((0 <? delta_days) && (delta_days <=? MAXORDINAL)) eqn:R; [|discriminate].
  apply andb_true_iff in R. destruct R as [R _]. apply Z.ltb_lt in R.
  pose proof (ord2ymd_spec delta_days ltac:(lia)) as O.
  destruct (ord2ymd delta_days) as [[y m] dd].
  destruct O as (O & _).
  intros [= <-]. unfold utc_seconds, toordinal. cbn [year month day hour minute second utcoffset].
  split; [|reflexivity].
  rewrite O.
  pose proof (Z.div_mod total 86400 ltac:(lia)) as E1.
  pose proof (Z.div_mod (total mod 86400) 3600 ltac:(lia)) as E2.
  pose proof (Z.div_mod ((total mod 86400) mod 3600) 60 ltac:(lia)) as E3.
  unfold delta_days. fold (toordinal d).
  assert (T : total = hour d * 3600 + minute d * 60 + second d + seconds) by reflexivity.
  clearbody total. lia.
Qed.

(** One hour can always be added to a valid value before the year 9999. *)
Lemma add_hour_defined (d : datetime) :
  wf d -> year d <= 9998 -> exists d', add_timedelta d 0 3600 = Done d'.
Proof.
  intros Hwf Hy.
  pose proof (toordinal_bounds d Hwf Hy) as B.
  apply wf_ranges in Hwf. destruct Hwf as (_ & _ & _ & Hh & Hm & Hs & _).
  unfold add_timedelta.
  set (total := hour d * 3600 + minute d * 60 + second d + 3600).
  assert (Q : 0 <= total / 86400 <= 1).
  { split; [apply Z.div_pos; unfold total; lia|].
    apply Z.lt_succ_r, Z.div_lt_upper_bound; unfold total; lia. }
  unfold MAXORDINAL in *.
  destruct ((0 <? toordinal d + 0 + total / 86400)
            && (toordinal d + 0 + total / 86400 <=? 3652059)) eqn:R.
  - destruct (ord2ymd _) as [[y m] dd]. eauto.
  - apply andb_false_iff in R. destruct R as [R|R];
      [apply Z.ltb_ge in R | apply Z.leb_gt in R]; lia.
Qed.

End DateArithmetic.

(* ===================================================================== *)
(** * What the client leaves untouched *)
(* ===================================================================== *)

Ltac unfold_monad :=
  cbv [bind ret raise lift try_except print utter_message record_call
       write_token read_token now].

(** A computation is quiet when it utters nothing, calls no client
    wrapper and does not read the clock, whatever else it does to the
    state. *)
Definition quiet {A : Type} (m : M A) : Prop :=
  forall st, messages (snd (m st)) = messages st
             /\ calls (snd (m st)) = calls st
             /\ clock (snd (m st)) = clock st.

Create HintDb quiet.

Section Quiet.

Context {A B : Type}.

Lemma quiet_ret (a : A) : quiet (ret a).
Proof. intros st. repeat split; reflexivity. Qed.

Lemma quiet_raise (e : exn) : quiet (@raise A e).
Proof. intros st. repeat split; reflexivity. Qed.

Lemma quiet_lift (o : outcome A) : quiet (lift o).
Proof. intros st. repeat split; reflexivity. Qed.

Lemma quiet_bind (m : M A) (k : A -> M B) :
  quiet m -> (forall a, quiet (k a)) -> quiet (bind m k).
Proof.
  intros Hm Hk st. unfold bind. specialize (Hm st).
  destruct (m st) as [[a|e] st']; cbn in *; [|exact Hm].
  destruct (Hk a st') as (H1 & H2 & H3). destruct Hm as (H4 & H5 & H6).
  repeat split; congruence.
Qed.

Lemma quiet_try_except (m : M A) (h : exn -> M A) :
  quiet m -> (forall e, quiet (h e)) -> quiet (try_except m h).
Proof.
  intros Hm Hh st. unfold try_except. specialize (Hm st).
  destruct (m st) as [[a|e] st']; cbn in *; [exact Hm|].
  destruct (Hh e st') as (H1 & H2 & H3). destruct Hm as (H4 & H5 & H6).
  repeat split; congruence.
Qed.

End Quiet.

Lemma quiet_print (line : string) : quiet (print line).
Proof. intros st. repeat split; reflexivity. Qed.

Lemma quiet_write_token (c : Credentials) : quiet (write_token c).
Proof. intros st. repeat split; reflexivity. Qed.

Lemma quiet_read_token : quiet read_token.
Proof. intros st. repeat split; reflexivity. Qed.

#[local] Hint Resolve quiet_ret quiet_raise quiet_lift quiet_print
  quiet_write_token quiet_read_token : quiet.

Ltac quiet_step :=
  first [ solve [auto with quiet]
        | apply quiet_bind; [|intros ?]
        | apply quiet_try_except; [|intros ?]
        | match goal with
          | |- quiet (match ?x with _ => _ end) => destruct x
          | |- quiet (if ?x then _ else _) => destruct x
          end ].

Section Frames.

Context {platform : Platform} (w : World).

Lemma truthy_nonempty (s : string) : s <> "" -> truthy (Some s) = true.
Proof.
  intros Hs. unfold truthy. destruct (String.eqb_spec s ""); [contradiction|reflexivity].
Qed.

Lemma quiet_authorize : quiet (authorize w).
Proof. unfold authorize. repeat quiet_step. Qed.

Lemma quiet_save_token (c : Credentials) : quiet (save_token w c).
Proof. unfold save_token. repeat quiet_step. Qed.

Lemma quiet_load_credentials : quiet (load_credentials w).
Proof.
  pose proof quiet_authorize. pose proof quiet_save_token.
  unfold load_credentials. repeat quiet_step.
Qed.

(** Acquiring the service utters nothing and calls no client wrapper. *)
Lemma quiet_get_calendar_service : quiet (get_calendar_service w).
Proof.
  pose proof quiet_load_credentials.
  unfold get_calendar_service. repeat quiet_step.
Qed.

Lemma get_events_frame (service : Service) (time_min time_max : string) (st : State) :
  messages (snd (get_events w service time_min time_max st)) = messages st
  /\ calls (snd (get_events w service time_min time_max st))
     = (calls st ++ [Call_get_events service time_min time_max])%list.
Proof.
  unfold get_events. unfold_monad.
  destruct (events_list w service time_min time_max) as [r|e]; cbn; [auto|].
  destruct (is_HttpError e); cbn; auto.
Qed.

Lemma add_event_frame (service : Service) (event_name : string)
      (event_start event_end : datetime) (st : State) :
  messages (snd (add_event w service event_name event_start event_end st))
  = messages st
  /\ calls (snd (add_event w service event_name event_start event_end st))
     = (calls st ++ [Call_add_event service event_name event_start event_end])%list.
Proof.
  unfold add_event. unfold_monad.
  destruct (events_insert w service _) as [r|e]; cbn; [auto|].
  destruct (is_HttpError e); cbn; auto.
Qed.

Lemma get_events_value (service : Service) (time_min time_max : string) (st : State) :
  fst (get_events w service time_min time_max st)
  = listed w service time_min time_max.
Proof.
  unfold get_events, listed. unfold_monad.
  destruct (events_list w service time_min time_max) as [[items|]|e]; cbn; auto.
  destruct (is_HttpError e); reflexivity.
Qed.

Lemma add_event_value (service : Service) (event_name : string)
      (event_start event_end : datetime) (st : State) :
  fst (add_event w service event_name event_start event_end st)
  = inserted w service event_name event_start event_end.
Proof.
  unfold add_event, inserted. unfold_monad.
  destruct (events_insert w service _) as [r|e]; cbn; auto.
  destruct (is_HttpError e); reflexivity.
Qed.

(** The window of a parsed time: the localized start and the end one
    hour later. *)
Lemma parsed_window (time_str : string) (parsed : datetime) :
  strptime time_str = inr parsed ->
  exists start_ end_,
    localize parsed = Done start_
    /\ add_timedelta start_ 0 3600 = Done end_
    /\ utc_seconds end_ = utc_seconds start_ + 3600
    /\ utcoffset end_ = utcoffset start_.
Proof.
  intros Hp. apply strptime_valid in Hp. destruct Hp as (Hwf & Hy & Hnaive).
  unfold localize. rewrite Hnaive.
  set (start_ := mkdt _ _ _ _ _ _ _ _).
  destruct (add_hour_defined start_) as [end_ Hend].
  - exact Hwf.
  - cbn. lia.
  - exists start_, end_. split; [reflexivity|]. split; [exact Hend|].
    apply add_timedelta_instant in Hend. destruct Hend as [Hs Ho].
    split; [lia|exact Ho].
Qed.

End Frames.


(* ===================================================================== *)
(** * Properties of the handlers *)
(* ===================================================================== *)

Section Properties.

Context {platform : Platform} (w : World).

(** Entering the [try] of the add handler with both slots filled. *)
Lemma add_run_filled (tracker : Tracker) (event_name time_str : string) (st : State) :
  get_slot tracker "event" = Some event_name -> event_name <> "" ->
  get_slot tracker "time" = Some time_str -> time_str <> "" ->
  AddEventToCalendar.run w tracker st
  = match
      try_except (AddEventToCalendar.attempt w event_name time_str)
        (fun e =>
           (if is_ValueError e then
              utter_message
                ("Time parsing error: " ++ exn_str e
                 ++ ". Please ensure the time is in 'DD/MM/YY HH:MM:SS' format.")
            else utter_message ("An unexpected error occurred: " ++ exn_str e)) ;;
           ret None) st
    with
    | (Done (Some events), st') => (Done events, st')
    | (Done None, st') => (Done [AllSlotsReset], st')
    | (Raised e, st') => (Raised e, st')
    end.
Proof.
  intros He Hne Ht Hnt. unfold AddEventToCalendar.run.
  rewrite He, Ht, (truthy_nonempty _ Hne), (truthy_nonempty _ Hnt).
  cbn [negb orb text]. unfold bind at 1.
  destruct (try_except _ _ st) as [[[events|]|e] st']; reflexivity.
Qed.

Section AddPaths.

Variables (event_name time_str : string) (parsed start_ end_ : datetime).
Hypothesis Hparse : strptime time_str = inr parsed.
Hypothesis Hstart : localize parsed = Done start_.
Hypothesis Hend : add_timedelta start_ 0 3600 = Done end_.

(** The [try] body of the add handler once the window is computed, path
    by path. *)
Lemma attempt_paths (st : State) :
  AddEventToCalendar.attempt w event_name time_str st
  = match get_calendar_service w st with
    | (Raised e, st1) => (Raised e, st1)
    | (Done None, st1) => (Done (Some [AllSlotsReset]), uttered service_failure st1)
    | (Done (Some service), st1) =>
        match get_events w service (isoformat start_) (isoformat end_) st1 with
        | (Raised e, st2) => (Raised e, st2)
        | (Done (conflicting_event :: _), st2) =>
            match start_of conflicting_event, summary conflicting_event with
            | Raised e, _ => (Raised e, st2)
            | Done _, None => (Raised (key_error "summary"), st2)
            | Done event_start, Some s =>
                (Done None, uttered (conflict_message s event_start) st2)
            end
        | (Done [], st2) =>
            match add_event w service event_name start_ end_ st2 with
            | (Raised e, st3) => (Raised e, st3)
            | (Done created, st3) =>
                (Done None,
                 uttered (if truthy_dict created
                          then confirmation event_name start_ end_
                          else insert_failure) st3)
            end
        end
    end.
Proof.
  unfold AddEventToCalendar.attempt. rewrite Hparse.
  unfold bind at 1, ret at 1. unfold bind at 1, lift at 1. rewrite Hstart.
  unfold bind at 1, lift at 1. rewrite Hend.
  unfold bind at 1.
  destruct (get_calendar_service w st) as [[[service|]|e] st1]; try reflexivity.
  unfold bind at 1.
  destruct (get_events w service _ _ st1) as [[[|ev evs]|e] st2]; try reflexivity.
  - unfold bind at 1.
    destruct (add_event w service event_name start_ end_ st2) as [[created|e] st3];
      [|reflexivity].
    destruct (truthy_dict created); reflexivity.
  - unfold bind at 1, lift at 1.
    destruct (start_of ev) as [event_start|e]; [|reflexivity].
    destruct (summary ev); reflexivity.
Qed.

End AddPaths.

(** The add handler with both slots filled and a time that parses, path
    by path: every path ends by returning the reset-all-slots event. *)
Lemma add_run_paths (tracker : Tracker) (event_name time_str : string)
      (parsed start_ end_ : datetime) (st : State) :
  get_slot tracker "event" = Some event_name -> event_name <> "" ->
  get_slot tracker "time" = Some time_str -> time_str <> "" ->
  strptime time_str = inr parsed ->
  localize parsed = Done start_ ->
  add_timedelta start_ 0 3600 = Done end_ ->
  AddEventToCalendar.run w tracker st
  = match get_calendar_service w st with
    | (Raised e, st1) => (Done [AllSlotsReset], uttered (add_error_message e) st1)
    | (Done None, st1) => (Done [AllSlotsReset], uttered service_failure st1)
    | (Done (Some service), st1) =>
        match get_events w service (isoformat start_) (isoformat end_) st1 with
        | (Raised e, st2) =>
            (Done [AllSlotsReset], uttered (add_error_message e) st2)
        | (Done (conflicting_event :: _), st2) =>
            (Done [AllSlotsReset],
             uttered
               match start_of conflicting_event, summary conflicting_event with
               | Raised e, _ => add_error_message e
               | Done _, None => add_error_message (key_error "summary")
               | Done event_start, Some s => conflict_message s event_start
               end st2)
        | (Done [], st2) =>
            match add_event w service event_name start_ end_ st2 with
            | (Raised e, st3) =>
                (Done [AllSlotsReset], uttered (add_error_message e) st3)
            | (Done created, st3) =>
                (Done [AllSlotsReset],
                 uttered (if truthy_dict created
                          then confirmation event_name start_ end_
                          else insert_failure) st3)
            end
        end
    end.
Proof.
  intros He Hne Ht Hnt Hp Hs Hend.
  rewrite (add_run_filled tracker event_name time_str st He Hne Ht Hnt).
  unfold try_except.
  rewrite (attempt_paths event_name time_str parsed start_ end_ Hp Hs Hend st).
  assert (Caught : forall e st',
             bind (if is_ValueError e then
                     utter_message
                       ("Time parsing error: " ++ exn_str e
                        ++ ". Please ensure the time is in 'DD/MM/YY HH:MM:SS' format.")
                   else utter_message ("An unexpected error occurred: " ++ exn_str e))
                  (fun _ => ret (@None (list RasaEvent))) st'
             = (Done None, uttered (add_error_message e) st')).
  { intros e st'. unfold add_error_message, uttered, bind, ret.
    destruct (is_ValueError e); reflexivity. }
  destruct (get_calendar_service w st) as [[[service|]|e] st1];
    [| reflexivity | rewrite Caught; reflexivity].
  destruct (get_events w service _ _ st1) as [[[|ev evs]|e] st2];
    [| | rewrite Caught; reflexivity].
  - destruct (add_event w service event_name start_ end_ st2) as [[created|e] st3];
      [reflexivity | rewrite Caught; reflexivity].
  - destruct (start_of ev) as [event_start|e]; [|rewrite Caught; reflexivity].
    destruct (summary ev); [reflexivity | rewrite Caught; reflexivity].
Qed.

(** The get handler, path by path: every path ends by returning the
    empty list. *)
Lemma get_run_paths (tracker : Tracker) (st : State) :
  GetEvent.run w tracker st
  = match get_calendar_service w st with
    | (Raised e, st1) => (Done [], uttered (get_error_message e) st1)
    | (Done None, st1) => (Done [], uttered service_failure st1)
    | (Done (Some service), st1) =>
        let st2 := snd (now w (snd (now w st1))) in
        match add_timedelta (utcnow w (S (clock st1))) 365 0 with
        | Raised e => (Done [], uttered (get_error_message e) st2)
        | Done next_year =>
            match get_events w service (isoformat (utcnow w (clock st1)) ++ "Z")
                             (isoformat next_year ++ "Z") st2 with
            | (Raised e, st3) => (Done [], uttered (get_error_message e) st3)
            | (Done [], st3) => (Done [], uttered no_events st3)
            | (Done (event :: events), st3) =>
                (Done [],
                 uttered match GetEvent.format_events (event :: events) with
                         | Done lines => upcoming lines
                         | Raised e => get_error_message e
                         end st3)
            end
        end
    end.
Proof.
  unfold GetEvent.run, GetEvent.attempt.
  unfold bind at 1, try_except at 1. unfold bind at 1.
  destruct (get_calendar_service w st) as [[[service|]|e] st1]; try reflexivity.
  unfold bind at 1, now at 1. unfold bind at 1, now at 1.
  cbn [clock]. unfold bind at 1, lift at 1.
  destruct (add_timedelta (utcnow w (S (clock st1))) 365 0) as [next_year|e];
    [|reflexivity].
  unfold bind at 1. cbv zeta.
  cbn [now snd token_pickle clock stdout messages calls].
  match goal with
  | |- context [get_events w service ?a ?b ?s] =>
      destruct (get_events w service a b s) as [[[|ev evs]|e] st3]
  end; try reflexivity.
  unfold bind at 1, lift at 1.
  destruct (GetEvent.format_events (ev :: evs)); reflexivity.
Qed.

Lemma messages_uttered (text : string) (st : State) :
  messages (uttered text st) = (messages st ++ [text])%list.
Proof. reflexivity. Qed.

Lemma calls_uttered (text : string) (st : State) :
  calls (uttered text st) = calls st.
Proof. reflexivity. Qed.

(** The lines of a list of events that all have a start. *)
Lemma format_events_lines (events : list Event) :
  Forall has_start events ->
  GetEvent.format_events events = Done (map event_line events).
Proof.
  induction 1 as [|event events Hev _ IH]; [reflexivity|].
  cbn [GetEvent.format_events map]. rewrite IH.
  unfold event_line, start_of, has_start in *.
  destruct (start event); [reflexivity|contradiction].
Qed.

Lemma add_run_unparsed (tracker : Tracker) (event_name time_str error_text : string)
      (st : State) :
  get_slot tracker "event" = Some event_name -> event_name <> "" ->
  get_slot tracker "time" = Some time_str -> time_str <> "" ->
  strptime time_str = inl error_text ->
  AddEventToCalendar.run w tracker st
  = (Done [AllSlotsReset],
     uttered (add_error_message (Exn ValueError error_text)) st).
Proof.
  intros He Hne Ht Hnt Hp.
  rewrite (add_run_filled tracker event_name time_str st He Hne Ht Hnt).
  unfold AddEventToCalendar.attempt. rewrite Hp. reflexivity.
Qed.

Section AddRuns.

Variables (tracker : Tracker) (event_name time_str : string)
          (parsed start_ end_ : datetime) (service : Service) (st : State).
Hypothesis Hevent : get_slot tracker "event" = Some event_name.
Hypothesis Hevent_filled : event_name <> "".
Hypothesis Htime : get_slot tracker "time" = Some time_str.
Hypothesis Htime_filled : time_str <> "".
Hypothesis Hparse : strptime time_str = inr parsed.
Hypothesis Hstart : localize parsed = Done start_.
Hypothesis Hend : add_timedelta start_ 0 3600 = Done end_.

(** No service: the failure message, and nothing else happens. *)
Lemma add_run_no_service :
  fst (get_calendar_service w st) = Done None ->
  exists st1,
    messages st1 = messages st /\ calls st1 = calls st
    /\ AddEventToCalendar.run w tracker st
       = (Done [AllSlotsReset], uttered service_failure st1).
Proof.
  intros Hsvc.
  rewrite (add_run_paths tracker event_name time_str parsed start_ end_ st
             Hevent Hevent_filled Htime Htime_filled Hparse Hstart Hend).
  destruct (quiet_get_calendar_service w st) as (Qm & Qc & _).
  destruct (get_calendar_service w st) as [r st1]. cbn [fst snd] in *. subst r.
  exists st1. auto.
Qed.

Hypothesis Hservice : fst (get_calendar_service w st) = Done (Some service).

(** With a service, the conflict query is made over the window; what
    follows depends on its answer. *)
Lemma add_run_listed (events : list Event) :
  listed w service (isoformat start_) (isoformat end_) = Done events ->
  exists st2,
    messages st2 = messages st
    /\ calls st2
       = (calls st ++ [Call_get_events service (isoformat start_) (isoformat end_)])%list
    /\ AddEventToCalendar.run w tracker st
       = match events with
         | conflicting_event :: _ =>
             (Done [AllSlotsReset],
              uttered
                match start_of conflicting_event, summary conflicting_event with
                | Raised e, _ => add_error_message e
                | Done _, None => add_error_message (key_error "summary")
                | Done event_start, Some s => conflict_message s event_start
                end st2)
         | [] =>
             match add_event w service event_name start_ end_ st2 with
             | (Raised e, st3) =>
                 (Done [AllSlotsReset], uttered (add_error_message e) st3)
             | (Done created, st3) =>
                 (Done [AllSlotsReset],
                  uttered (if truthy_dict created
                           then confirmation event_name start_ end_
                           else insert_failure) st3)
             end
         end.
Proof.
  intros Hl.
  rewrite (add_run_paths tracker event_name time_str parsed start_ end_ st
             Hevent Hevent_filled Htime Htime_filled Hparse Hstart Hend).
  destruct (quiet_get_calendar_service w st) as (Qm & Qc & _).
  destruct (get_calendar_service w st) as [r st1]. cbn [fst snd] in *. subst r.
  pose proof (get_events_value w service (isoformat start_) (isoformat end_) st1) as V.
  destruct (get_events_frame w service (isoformat start_) (isoformat end_) st1)
    as [Fm Fc].
  destruct (get_events w service (isoformat start_) (isoformat end_) st1) as [r st2].
  cbn [fst snd] in *. rewrite Hl in V. subst r.
  exists st2. split; [congruence|]. split; [congruence|].
  destruct events; reflexivity.
Qed.

(** With a service and no listed event, [add_event] is called with the
    window; what is uttered depends on its answer. *)
Lemma add_run_inserted (created : option CreatedEvent) :
  listed w service (isoformat start_) (isoformat end_) = Done [] ->
  inserted w service event_name start_ end_ = Done created ->
  exists st3,
    messages st3 = messages st
    /\ calls st3
       = (calls st ++ [Call_get_events service (isoformat start_) (isoformat end_);
                       Call_add_event service event_name start_ end_])%list
    /\ AddEventToCalendar.run w tracker st
       = (Done [AllSlotsReset],
          uttered (if truthy_dict created
                   then confirmation event_name start_ end_
                   else insert_failure) st3).
Proof.
  intros Hl Hi.
  destruct (add_run_listed [] Hl) as (st2 & Hm & Hc & Hrun).
  rewrite Hrun.
  pose proof (add_event_value w service event_name start_ end_ st2) as V.
  destruct (add_event_frame w service event_name start_ end_ st2) as [Fm Fc].
  destruct (add_event w service event_name start_ end_ st2) as [r st3].
  cbn [fst snd] in *. rewrite Hi in V. subst r.
  exists st3. split; [congruence|]. split; [|reflexivity].
  rewrite Fc, Hc, <- app_assoc. reflexivity.
Qed.

End AddRuns.

(** C3.  With both slots filled, a time string that [strptime] rejects
    makes the add handler utter exactly the format-error message, which
    begins with "Time parsing error:" and carries the parser's text; no
    client wrapper is called, so nothing is inserted, and the handler
    returns the reset-all-slots event. *)
Theorem C3_parse_error_reported (tracker : Tracker) (st : State)
        (event_name time_str error_text : string) :
  get_slot tracker "event" = Some event_name -> event_name <> "" ->
  get_slot tracker "time" = Some time_str -> time_str <> "" ->
  strptime time_str = inl error_text ->
  fst (AddEventToCalendar.run w tracker st) = Done [AllSlotsReset]
  /\ messages (snd (AddEventToCalendar.run w tracker st))
     = (messages st
        ++ [("Time parsing error: " ++ error_text
             ++ ". Please ensure the time is in 'DD/MM/YY HH:MM:SS' format.")%string])%list
  /\ calls (snd (AddEventToCalendar.run w tracker st)) = calls st.
Proof.
  intros He Hne Ht Hnt Hp.
  rewrite (add_run_unparsed tracker event_name time_str error_text st
             He Hne Ht Hnt Hp).
  cbn. auto.
Qed.

Lemma append_assoc (a b c : string) : ((a ++ b) ++ c = a ++ b ++ c)%string.
Proof. induction a as [|ch a IH]; cbn; [reflexivity|]. rewrite IH. reflexivity. Qed.

(** The confirmation shows both ends of the window as
    [strftime('%d/%m/%y %H:%M:%S')] prints them. *)
Lemma confirmation_contains (event_name : string) (event_start event_end : datetime) :
  contains (confirmation event_name event_start event_end) (strftime event_start)
  /\ contains (confirmation event_name event_start event_end) (strftime event_end).
Proof.
  unfold contains, confirmation. split.
  - exists ("Event '" ++ event_name ++ "' successfully added to your calendar from ")%string,
           (" to " ++ strftime event_end ++ ".")%string.
    rewrite !append_assoc. reflexivity.
  - exists ("Event '" ++ event_name ++ "' successfully added to your calendar from "
            ++ strftime event_start ++ " to ")%string, "."%string.
    rewrite !append_assoc. reflexivity.
Qed.

(** C1, amended.  For every non-empty event name and every time string
    that [strptime] parses with the format DD/MM/YY HH:MM:SS, when the
    service is available: the parsed time is localized, the end one hour
    later exists and denotes the instant exactly 3600 seconds after the
    start; when the conflict query over that window returns no events the
    add handler calls [add_event] with that start and that end, and
    returns the reset-all-slots event; and when the insertion returns a
    created event it utters, as its only message, the confirmation, which
    contains the formatted start and the formatted end. *)
Theorem C1_insert_one_hour_after_start
        (tracker : Tracker) (st : State) (event_name time_str : string)
        (parsed : datetime) (service : Service) :
  get_slot tracker "event" = Some event_name -> event_name <> "" ->
  get_slot tracker "time" = Some time_str -> time_str <> "" ->
  strptime time_str = inr parsed ->
  fst (get_calendar_service w st) = Done (Some service) ->
  exists start_ end_,
    localize parsed = Done start_
    /\ add_timedelta start_ 0 3600 = Done end_
    /\ utc_seconds end_ = utc_seconds start_ + 3600
    /\ (listed w service (isoformat start_) (isoformat end_) = Done [] ->
        fst (AddEventToCalendar.run w tracker st) = Done [AllSlotsReset]
        /\ calls (snd (AddEventToCalendar.run w tracker st))
           = (calls st
              ++ [Call_get_events service (isoformat start_) (isoformat end_);
                  Call_add_event service event_name start_ end_])%list
        /\ forall created,
            events_insert w service (new_event event_name start_ end_) = Done created ->
            created <> [] ->
            messages (snd (AddEventToCalendar.run w tracker st))
            = (messages st
               ++ [("Event '" ++ event_name
                    ++ "' successfully added to your calendar from "
                    ++ strftime start_ ++ " to " ++ strftime end_ ++ ".")%string])%list
            /\ contains (confirmation event_name start_ end_) (strftime start_)
            /\ contains (confirmation event_name start_ end_) (strftime end_)).
Proof.
  intros He Hne Ht Hnt Hp Hsvc.
  destruct (parsed_window time_str parsed Hp) as (start_ & end_ & Hs & Hend & Hu & _).
  exists start_, end_. repeat (split; [assumption|]).
  intros Hl.
  destruct (add_run_listed tracker event_name time_str parsed start_ end_ service st
              He Hne Ht Hnt Hp Hs Hend Hsvc [] Hl) as (st2 & Hm & Hc & Hrun).
  pose proof (add_event_value w service event_name start_ end_ st2) as V.
  destruct (add_event_frame w service event_name start_ end_ st2) as [Fm Fc].
  unfold inserted in V.
  destruct (add_event w service event_name start_ end_ st2) as [r st3].
  cbn [fst snd] in *.
  assert (Hcalls : calls st3
                   = (calls st
                      ++ [Call_get_events service (isoformat start_) (isoformat end_);
                          Call_add_event service event_name start_ end_])%list).
  { rewrite Fc, Hc, <- app_assoc. reflexivity. }
  split; [rewrite Hrun; destruct r; reflexivity|].
  split; [rewrite Hrun; destruct r; cbn [snd]; rewrite calls_uttered; exact Hcalls|].
  intros created Hi Hfilled.
  rewrite Hi in V. subst r. rewrite Hrun. cbn [snd].
  rewrite messages_uttered, Fm, Hm.
  destruct created as [|field fields]; [contradiction|].
  cbn [truthy_dict]. split; [reflexivity|].
  apply confirmation_contains.
Qed.

(** X23.  When the conflict query returns at least one event, the add handler
    makes no insertion: the conflict query, over the exact window of the
    proposed event, is its only call; and when the first returned event
    has a start and a summary, the handler utters the conflict message
    naming that summary and that start. *)
Lemma conflict_blocks_insertion
      (tracker : Tracker) (st : State) (event_name time_str : string)
      (parsed start_ end_ : datetime) (service : Service)
      (conflicting_event : Event) (others : list Event) :
  get_slot tracker "event" = Some event_name -> event_name <> "" ->
  get_slot tracker "time" = Some time_str -> time_str <> "" ->
  strptime time_str = inr parsed ->
  localize parsed = Done start_ ->
  add_timedelta start_ 0 3600 = Done end_ ->
  fst (get_calendar_service w st) = Done (Some service) ->
  listed w service (isoformat start_) (isoformat end_)
  = Done (conflicting_event :: others) ->
  fst (AddEventToCalendar.run w tracker st) = Done [AllSlotsReset]
  /\ calls (snd (AddEventToCalendar.run w tracker st))
     = (calls st ++ [Call_get_events service (isoformat start_) (isoformat end_)])%list
  /\ forall conflicting_summary event_start,
      summary conflicting_event = Some conflicting_summary ->
      start_of conflicting_event = Done event_start ->
      messages (snd (AddEventToCalendar.run w tracker st))
      = (messages st
         ++ [("Cannot create new event because the time slot is already taken by '"
              ++ conflicting_summary ++ "' at " ++ event_start ++ ".")%string])%list.
Proof.
  intros He Hne Ht Hnt Hp Hs Hend Hsvc Hl.
  destruct (add_run_listed tracker event_name time_str parsed start_ end_ service st
              He Hne Ht Hnt Hp Hs Hend Hsvc _ Hl) as (st2 & Hm & Hc & Hrun).
  rewrite Hrun. cbn [fst snd]. rewrite calls_uttered, messages_uttered, Hm.
  split; [reflexivity|]. split; [exact Hc|].
  intros s es Hsum Hst. rewrite Hsum, Hst. reflexivity.
Qed.

(** C10.  When the first event the conflict query returns has no
    summary, the add handler utters the generic unexpected-error message
    instead of the conflict message: "An unexpected error occurred: "
    followed by the text of the [KeyError], which names ['summary'] when
    the event has a start and ['start'] when it has none; the conflict
    query is still its only call, so nothing is inserted, and it still
    returns the reset-all-slots event. *)
Theorem C10_untitled_conflict_is_unexpected_error
        (tracker : Tracker) (st : State) (event_name time_str : string)
        (parsed start_ end_ : datetime) (service : Service)
        (conflicting_event : Event) (others : list Event) :
  get_slot tracker "event" = Some event_name -> event_name <> "" ->
  get_slot tracker "time" = Some time_str -> time_str <> "" ->
  strptime time_str = inr parsed ->
  localize parsed = Done start_ ->
  add_timedelta start_ 0 3600 = Done end_ ->
  fst (get_calendar_service w st) = Done (Some service) ->
  listed w service (isoformat start_) (isoformat end_)
  = Done (conflicting_event :: others) ->
  summary conflicting_event = None ->
  fst (AddEventToCalendar.run w tracker st) = Done [AllSlotsReset]
  /\ messages (snd (AddEventToCalendar.run w tracker st))
     = (messages st
        ++ [("An unexpected error occurred: "
             ++ match start conflicting_event with
                | Some _ => "'summary'"
                | None => "'start'"
                end)%string])%list
  /\ calls (snd (AddEventToCalendar.run w tracker st))
     = (calls st ++ [Call_get_events service (isoformat start_) (isoformat end_)])%list.
Proof.
  intros He Hne Ht Hnt Hp Hs Hend Hsvc Hl Hsum.
  destruct (add_run_listed tracker event_name time_str parsed start_ end_ service st
              He Hne Ht Hnt Hp Hs Hend Hsvc _ Hl) as (st2 & Hm & Hc & Hrun).
  rewrite Hrun. cbn [fst snd]. rewrite calls_uttered, messages_uttered, Hm, Hsum.
  split; [reflexivity|]. split; [|exact Hc].
  unfold start_of. destruct (start conflicting_event); reflexivity.
Qed.

(** Errors other than [HttpError] pass through both client wrappers. *)
Lemma other_errors_propagate (error : exn) :
  is_HttpError error = false ->
  (forall service time_min time_max st,
      events_list w service time_min time_max = Raised error ->
      fst (get_events w service time_min time_max st) = Raised error)
  /\ (forall service event_name event_start event_end st,
         events_insert w service (new_event event_name event_start event_end)
         = Raised error ->
         fst (add_event w service event_name event_start event_end st) = Raised error).
Proof.
  intros Hother. split.
  - intros service time_min time_max st Hl.
    rewrite get_events_value. unfold listed. rewrite Hl, Hother. reflexivity.
  - intros service event_name event_start event_end st Hi.
    rewrite add_event_value. unfold inserted. rewrite Hi, Hother. reflexivity.
Qed.

(** C7, amended.  The remote errors the wrappers handle are those of
    class [HttpError] (lines 78 and 96).  For every [HttpError] the list
    request raises, [get_events] returns the empty sequence and its
    caller sees no failure: nothing is raised and nothing is uttered.
    For every [HttpError] the insert request raises, [add_event] returns
    [None], and the add handler, which has then found no conflicting
    event, utters the explicit message "Failed to add the event due to
    an internal error.". *)
Theorem C7_list_errors_hidden_insert_errors_reported (error : exn) :
  is_HttpError error = true ->
  (forall service time_min time_max st,
      events_list w service time_min time_max = Raised error ->
      fst (get_events w service time_min time_max st) = Done []
      /\ messages (snd (get_events w service time_min time_max st)) = messages st)
  /\ (forall service event_name event_start event_end st,
         events_insert w service (new_event event_name event_start event_end)
         = Raised error ->
         fst (add_event w service event_name event_start event_end st) = Done None)
  /\ (forall tracker st event_name time_str parsed start_ end_ service,
         get_slot tracker "event" = Some event_name -> event_name <> "" ->
         get_slot tracker "time" = Some time_str -> time_str <> "" ->
         strptime time_str = inr parsed ->
         localize parsed = Done start_ ->
         add_timedelta start_ 0 3600 = Done end_ ->
         fst (get_calendar_service w st) = Done (Some service) ->
         listed w service (isoformat start_) (isoformat end_) = Done [] ->
         events_insert w service (new_event event_name start_ end_) = Raised error ->
         fst (AddEventToCalendar.run w tracker st) = Done [AllSlotsReset]
         /\ messages (snd (AddEventToCalendar.run w tracker st))
            = (messages st
               ++ ["Failed to add the event due to an internal error."])%list).
Proof.
  intros Hhttp. split; [|split].
  - intros service time_min time_max st Hl.
    rewrite get_events_value. unfold listed. rewrite Hl, Hhttp.
    split; [reflexivity|]. apply get_events_frame.
  - intros service event_name event_start event_end st Hi.
    rewrite add_event_value. unfold inserted. rewrite Hi, Hhttp. reflexivity.
  - intros tracker st event_name time_str parsed start_ end_ service
           He Hne Ht Hnt Hp Hs Hend Hsvc Hl Hi.
    assert (Hins : inserted w service event_name start_ end_ = Done None).
    { unfold inserted. rewrite Hi, Hhttp. reflexivity. }
    destruct (add_run_inserted tracker event_name time_str parsed start_ end_ service st
                He Hne Ht Hnt Hp Hs Hend Hsvc None Hl Hins) as (st3 & Hm & _ & Hrun).
    rewrite Hrun. cbn [fst snd]. rewrite messages_uttered, Hm. auto.
Qed.

(** C6, amended.  For every error raised while building the service
    handle, once the credentials were loaded, refreshed or obtained
    without error, [get_calendar_service] does not raise: it prints the
    error and returns [None].  Each handler then treats this as service
    unavailable: it utters "Failed to initialize Google Calendar
    service." as its only message, calls no client wrapper and
    terminates, the get handler returning the empty list and the add
    handler (reached with both slots filled and a time that parses) the
    reset-all-slots event.  An error raised while the credentials are
    loaded, refreshed, obtained or saved (lines 24-45, outside the
    [try]) is raised to the caller of [get_calendar_service]. *)
Theorem C6_build_error_is_service_unavailable
        (tracker : Tracker) (st st1 : State) (creds : Credentials) (error : exn) :
  load_credentials w st = (Done creds, st1) ->
  build w creds = Raised error ->
  (fst (get_calendar_service w st) = Done None
   /\ stdout (snd (get_calendar_service w st))
      = (stdout st1
         ++ [("An error occurred while building the service: "
              ++ exn_str error)%string])%list)
  /\ (fst (GetEvent.run w tracker st) = Done []
      /\ messages (snd (GetEvent.run w tracker st))
         = (messages st ++ ["Failed to initialize Google Calendar service."])%list
      /\ calls (snd (GetEvent.run w tracker st)) = calls st)
  /\ (forall event_name time_str parsed,
         get_slot tracker "event" = Some event_name -> event_name <> "" ->
         get_slot tracker "time" = Some time_str -> time_str <> "" ->
         strptime time_str = inr parsed ->
         fst (AddEventToCalendar.run w tracker st) = Done [AllSlotsReset]
         /\ messages (snd (AddEventToCalendar.run w tracker st))
            = (messages st ++ ["Failed to initialize Google Calendar service."])%list
         /\ calls (snd (AddEventToCalendar.run w tracker st)) = calls st)
  /\ (forall st0 e0,
         fst (load_credentials w st0) = Raised e0 ->
         fst (get_calendar_service w st0) = Raised e0).
Proof.
  intros Hload Hbuild.
  assert (Hsvc : get_calendar_service w st
                 = (Done None,
                    snd (print ("An error occurred while building the service: "
                                ++ exn_str error) st1))).
  { unfold get_calendar_service. unfold bind at 1. rewrite Hload.
    unfold try_except, bind, lift. rewrite Hbuild. reflexivity. }
  split; [rewrite Hsvc; split; reflexivity|].
  split; [|split].
  - rewrite get_run_paths.
    destruct (quiet_get_calendar_service w st) as (Qm & Qc & _).
    rewrite Hsvc in *. cbn [fst snd] in *.
    rewrite messages_uttered, calls_uttered, Qm, Qc. auto.
  - intros event_name time_str parsed He Hne Ht Hnt Hp.
    destruct (parsed_window time_str parsed Hp) as (start_ & end_ & Hs & Hend & _).
    destruct (add_run_no_service tracker event_name time_str parsed start_ end_ st
                He Hne Ht Hnt Hp Hs Hend) as (st' & Hm & Hc & Hrun).
    { rewrite Hsvc. reflexivity. }
    rewrite Hrun. cbn [fst snd]. rewrite messages_uttered, calls_uttered, Hm, Hc. auto.
  - intros st0 e0 Hraised.
    unfold get_calendar_service. unfold bind at 1.
    destruct (load_credentials w st0) as [[creds0|e1] st0'];
      cbn [fst] in Hraised; [discriminate|].
    cbn [fst]. congruence.
Qed.

(** C8.  Whatever the slots, the world and the state, and whichever path
    is taken (missing slots, parse error, service unavailable, conflict,
    successful or failed insertion, unexpected error), the add handler
    returns, and what it returns is the list holding the reset-all-slots
    event alone. *)
Theorem C8_add_always_resets_slots (tracker : Tracker) (st : State) :
  fst (AddEventToCalendar.run w tracker st) = Done [AllSlotsReset].
Proof.
  destruct (get_slot tracker "event") as [event_name|] eqn:He;
    [|unfold AddEventToCalendar.run; rewrite He; reflexivity].
  destruct (String.eqb_spec event_name "") as [E1|Hne].
  { unfold AddEventToCalendar.run. rewrite He. subst event_name. reflexivity. }
  destruct (get_slot tracker "time") as [time_str|] eqn:Ht;
    [|unfold AddEventToCalendar.run;
      rewrite He, Ht, (truthy_nonempty _ Hne); reflexivity].
  destruct (String.eqb_spec time_str "") as [E2|Hnt].
  { unfold AddEventToCalendar.run. rewrite He, Ht, (truthy_nonempty _ Hne).
    subst time_str. reflexivity. }
  destruct (strptime time_str) as [error_text|parsed] eqn:Hp.
  - rewrite (add_run_unparsed tracker event_name time_str error_text st
               He Hne Ht Hnt Hp). reflexivity.
  - destruct (parsed_window time_str parsed Hp) as (start_ & end_ & Hs & Hend & _).
    rewrite (add_run_paths tracker event_name time_str parsed start_ end_ st
               He Hne Ht Hnt Hp Hs Hend).
    destruct (get_calendar_service w st) as [[[service|]|e] st1]; try reflexivity.
    destruct (get_events w service _ _ st1) as [[[|ev evs]|e] st2]; try reflexivity.
    destruct (add_event w service event_name start_ end_ st2) as [[created|e] st3];
      reflexivity.
Qed.

(** C9.  Whatever the world and the state, and whichever path is taken
    (service unavailable, empty result, non-empty result, error), the
    get handler returns, and what it returns is the empty list: it
    resets or sets no slot. *)
Theorem C9_get_never_touches_slots (tracker : Tracker) (st : State) :
  fst (GetEvent.run w tracker st) = Done [].
Proof.
  rewrite get_run_paths.
  destruct (get_calendar_service w st) as [[[service|]|e] st1]; try reflexivity.
  cbv zeta.
  destruct (add_timedelta (utcnow w (S (clock st1))) 365 0) as [next_year|e];
    [|reflexivity].
  destruct (get_events w service _ _ _) as [[[|ev evs]|e] st3]; reflexivity.
Qed.

Section GetRuns.

Variables (tracker : Tracker) (st : State) (service : Service) (next_year : datetime).
Hypothesis Hservice : fst (get_calendar_service w st) = Done (Some service).
Hypothesis Hwindow :
  add_timedelta (utcnow w (S (clock st))) 365 0
  = Done next_year.

(** With a service, the listing is made over the coming 365 days; what
    is uttered depends on its answer. *)
Lemma get_run_listed (events : list Event) :
  listed w service
         (isoformat (utcnow w (clock st)) ++ "Z")
         (isoformat next_year ++ "Z") = Done events ->
  exists st3,
    messages st3 = messages st
    /\ GetEvent.run w tracker st
       = (Done [],
          uttered match events with
                  | [] => no_events
                  | _ :: _ =>
                      match GetEvent.format_events events with
                      | Done lines => upcoming lines
                      | Raised e => get_error_message e
                      end
                  end st3).
Proof.
  intros Hl. rewrite get_run_paths.
  destruct (quiet_get_calendar_service w st) as (Qm & _ & Qk).
  destruct (get_calendar_service w st) as [r st1]. cbn [fst snd] in *. subst r.
  cbv zeta. rewrite Qk, Hwindow.
  match goal with
  | |- context [get_events w service ?a ?b ?s] =>
      pose proof (get_events_value w service a b s) as V;
      destruct (get_events_frame w service a b s) as [Fm _];
      destruct (get_events w service a b s) as [r st3]
  end.
  cbn [fst snd] in *. rewrite Hl in V. subst r.
  exists st3. split; [rewrite Fm; exact Qm|].
  destruct events; reflexivity.
Qed.

End GetRuns.

(** C5.  When the service was acquired and the listing over the coming
    365 days returns the empty sequence, the get handler utters exactly
    "You have no upcoming events." and returns the empty list. *)
Theorem C5_no_upcoming_events
        (tracker : Tracker) (st : State) (service : Service) (next_year : datetime) :
  fst (get_calendar_service w st) = Done (Some service) ->
  add_timedelta (utcnow w (S (clock st))) 365 0
  = Done next_year ->
  listed w service
         (isoformat (utcnow w (clock st)) ++ "Z")
         (isoformat next_year ++ "Z") = Done [] ->
  fst (GetEvent.run w tracker st) = Done []
  /\ messages (snd (GetEvent.run w tracker st))
     = (messages st ++ ["You have no upcoming events."])%list.
Proof.
  intros Hsvc Hwin Hl.
  destruct (get_run_listed tracker st service next_year Hsvc Hwin [] Hl)
    as (st3 & Hm & Hrun).
  rewrite Hrun. cbn [fst snd]. rewrite messages_uttered, Hm. auto.
Qed.

(** C4, amended.  When the service was acquired and the listing over the
    coming 365 days returns a non-empty list of events that all have a
    start, the get handler utters a single message: the heading
    "Your upcoming events:" followed, one line per event in the order
    returned, by "<start>: <summary>", where <start> is the event's
    [dateTime], else its [date], and <summary> is "No Title" when the
    event has none; and it returns the empty list. *)
Theorem C4_upcoming_events_listed
        (tracker : Tracker) (st : State) (service : Service) (next_year : datetime)
        (event : Event) (events : list Event) :
  fst (get_calendar_service w st) = Done (Some service) ->
  add_timedelta (utcnow w (S (clock st))) 365 0
  = Done next_year ->
  listed w service
         (isoformat (utcnow w (clock st)) ++ "Z")
         (isoformat next_year ++ "Z") = Done (event :: events) ->
  Forall has_start (event :: events) ->
  fst (GetEvent.run w tracker st) = Done []
  /\ messages (snd (GetEvent.run w tracker st))
     = (messages st
        ++ [("Your upcoming events:" ++ nl
             ++ join nl (map event_line (event :: events)))%string])%list.
Proof.
  intros Hsvc Hwin Hl Hstarts.
  destruct (get_run_listed tracker st service next_year Hsvc Hwin _ Hl)
    as (st3 & Hm & Hrun).
  rewrite Hrun, (format_events_lines _ Hstarts).
  cbn [fst snd]. rewrite messages_uttered, Hm. auto.
Qed.

End Properties.

(* ===================================================================== *)
(** * Credentials: the cache, refreshing and authorizing *)
(* ===================================================================== *)

Section Credentials.

Context (w : World).

(** The state once ["Loaded credentials from token.pickle"] is printed. *)
Definition loaded (st : State) : State :=
  snd (print "Loaded credentials from token.pickle" st).

(** The state once [creds] are written to the cache, after [line] was
    printed. *)
Definition saved (line : string) (creds : Credentials) (st : State) : State :=
  snd (print "Saved new credentials to token.pickle"
             (snd (write_token creds (snd (print line st))))).

(** Valid cached credentials are used as they are. *)
Lemma load_credentials_hit (st : State) (creds : Credentials) :
  token_pickle st = Some creds -> token_load_error w = None ->
  valid creds = true ->
  load_credentials w st = (Done creds, loaded st).
Proof.
  intros Hc Hl Hv. unfold load_credentials, loaded. unfold_monad.
  rewrite Hc, Hl. cbn. rewrite Hv, ?Hc. reflexivity.
Qed.

(** Whatever path is taken, credentials that are returned are in the cache. *)
Lemma load_credentials_stores (st st1 : State) (creds : Credentials) :
  load_credentials w st = (Done creds, st1) -> token_pickle st1 = Some creds.
Proof.
  unfold load_credentials, authorize, save_token. unfold_monad.
  destruct (token_pickle st) as [cached|] eqn:Hc.
  - destruct (token_load_error w); [discriminate|]. cbn.
    destruct (valid cached).
    + intros [= <- <-]. exact Hc.
    + destruct (expired cached && truthy (refresh_token cached)).
      * destruct (refresh w cached) as [c'|e]; [|discriminate]. cbn.
        destruct (token_save_error w); [discriminate|]. cbn.
        intros [= <- <-]. reflexivity.
      * destruct (run_local_server w) as [c'|e]; [|discriminate]. cbn.
        destruct (token_save_error w); [discriminate|]. cbn.
        intros [= <- <-]. reflexivity.
  - destruct (run_local_server w) as [c'|e]; [|discriminate]. cbn.
    destruct (token_save_error w); [discriminate|]. cbn.
    intros [= <- <-]. reflexivity.
Qed.

(** The service is built from what [load_credentials] returns; an error
    of the build is printed and becomes [None]. *)
Lemma get_calendar_service_loaded (st st1 : State) (creds : Credentials) :
  load_credentials w st = (Done creds, st1) ->
  get_calendar_service w st
  = match build w creds with
    | Done service => (Done (Some service), st1)
    | Raised e =>
        (Done None,
         snd (print ("An error occurred while building the service: " ++ exn_str e)
                    st1))
    end.
Proof.
  intros Hl. unfold get_calendar_service. unfold bind at 1. rewrite Hl.
  unfold try_except, bind, lift. destruct (build w creds); reflexivity.
Qed.

Lemma get_calendar_service_raised (st st1 : State) (e : exn) :
  load_credentials w st = (Raised e, st1) ->
  get_calendar_service w st = (Raised e, st1).
Proof.
  intros Hl. unfold get_calendar_service. unfold bind at 1. rewrite Hl. reflexivity.
Qed.

(** X1.  [get_calendar_service] raises exactly when loading, refreshing,
    obtaining or saving the credentials raises, and then with the same
    exception: no error of the build escapes, and no error of the
    credential steps is turned into [None]. *)
Theorem service_raises_iff_credentials_raise (st : State) (e : exn) :
  fst (get_calendar_service w st) = Raised e
  <-> fst (load_credentials w st) = Raised e.
Proof.
  destruct (load_credentials w st) as [[creds|e'] st1] eqn:Hl.
  - rewrite (get_calendar_service_loaded st st1 creds Hl).
    destruct (build w creds); cbn; split; discriminate.
  - rewrite (get_calendar_service_raised st st1 e' Hl). cbn.
    split; intros [= ->]; reflexivity.
Qed.

(** X2.  Whenever [get_calendar_service] returns, with a service or with
    [None], the token cache holds the credentials the build was called
    with: the service that is returned was built from them, and [None]
    means that the build raised on them. *)
Theorem service_built_from_cached_credentials
        (st : State) (result : option Service) :
  fst (get_calendar_service w st) = Done result ->
  exists creds,
    token_pickle (snd (get_calendar_service w st)) = Some creds
    /\ match result with
       | Some service => build w creds = Done service
       | None => exists e, build w creds = Raised e
       end.
Proof.
  destruct (load_credentials w st) as [[creds|e'] st1] eqn:Hl.
  - rewrite (get_calendar_service_loaded st st1 creds Hl).
    pose proof (load_credentials_stores st st1 creds Hl) as Hs.
    destruct (build w creds) as [service|e] eqn:Hb; cbn; intros [= <-];
      exists creds; (split; [exact Hs|]); [exact Hb | eauto].
  - rewrite (get_calendar_service_raised st st1 e' Hl). discriminate.
Qed.

(** X3.  With valid credentials in the cache, the service is built from
    them and nothing else happens: the cache is not rewritten, and
    neither the refresh nor the authorization flow nor the saving is
    consulted, whatever they would answer. *)
Theorem valid_cache_is_used_as_is (st : State) (creds : Credentials) :
  token_pickle st = Some creds -> token_load_error w = None ->
  valid creds = true ->
  get_calendar_service w st
  = match build w creds with
    | Done service => (Done (Some service), loaded st)
    | Raised e =>
        (Done None,
         snd (print ("An error occurred while building the service: " ++ exn_str e)
                    (loaded st)))
    end
  /\ token_pickle (snd (get_calendar_service w st)) = Some creds.
Proof.
  intros Hc Hl Hv.
  rewrite (get_calendar_service_loaded st (loaded st) creds
             (load_credentials_hit st creds Hc Hl Hv)).
  split; [reflexivity|]. destruct (build w creds); exact Hc.
Qed.

(** X4.  Cached credentials that are invalid, expired and carry a refresh
    token are refreshed, and the refreshed credentials replace them in
    the cache and are returned; the authorization flow is not consulted. *)
Theorem expired_credentials_are_refreshed
        (st : State) (creds refreshed : Credentials) :
  token_pickle st = Some creds -> token_load_error w = None ->
  valid creds = false -> expired creds = true ->
  truthy (refresh_token creds) = true ->
  refresh w creds = Done refreshed -> token_save_error w = None ->
  load_credentials w st
  = (Done refreshed, saved "Credentials refreshed" refreshed (loaded st))
  /\ token_pickle (snd (load_credentials w st)) = Some refreshed.
Proof.
  intros Hc Hl Hv He Ht Hr Hs.
  assert (E : load_credentials w st
              = (Done refreshed, saved "Credentials refreshed" refreshed (loaded st))).
  { unfold load_credentials, save_token, saved, loaded. unfold_monad.
    rewrite Hc, Hl. cbn. rewrite Hv, He, Ht. cbn.
    rewrite Hr, Hs. cbn. rewrite ?Hc. reflexivity. }
  rewrite E. split; reflexivity.
Qed.

(** X5.  When that refresh raises, the error propagates: there is no
    fall-back to the authorization flow, no service is built, and the
    cache keeps the stale credentials. *)
Theorem failed_refresh_is_not_retried
        (st : State) (creds : Credentials) (e : exn) :
  token_pickle st = Some creds -> token_load_error w = None ->
  valid creds = false -> expired creds = true ->
  truthy (refresh_token creds) = true ->
  refresh w creds = Raised e ->
  get_calendar_service w st = (Raised e, loaded st)
  /\ token_pickle (snd (get_calendar_service w st)) = Some creds.
Proof.
  intros Hc Hl Hv He Ht Hr.
  assert (E : load_credentials w st = (Raised e, loaded st)).
  { unfold load_credentials, loaded. unfold_monad.
    rewrite Hc, Hl. cbn. rewrite Hv, He, Ht. cbn.
    rewrite Hr, ?Hc. reflexivity. }
  rewrite (get_calendar_service_raised st (loaded st) e E).
  split; [reflexivity|exact Hc].
Qed.

(** X6.  Without a cache, or with cached credentials that are invalid and
    cannot be refreshed (not expired, or without a refresh token), the
    credentials come from the authorization flow and are written to the
    cache, replacing what was there. *)
Theorem missing_or_stale_credentials_are_obtained
        (st : State) (obtained : Credentials) :
  match token_pickle st with
  | None => True
  | Some creds =>
      token_load_error w = None /\ valid creds = false
      /\ (expired creds = false \/ truthy (refresh_token creds) = false)
  end ->
  run_local_server w = Done obtained -> token_save_error w = None ->
  fst (load_credentials w st) = Done obtained
  /\ token_pickle (snd (load_credentials w st)) = Some obtained
  /\ stdout (snd (load_credentials w st))
     = (stdout st
        ++ match token_pickle st with
           | None => []
           | Some _ => ["Loaded credentials from token.pickle"]
           end
        ++ ["Obtained new credentials"; "Saved new credentials to token.pickle"])%list.
Proof.
  intros Hc Hf Hs.
  unfold load_credentials, authorize, save_token. unfold_monad.
  destruct (token_pickle st) as [creds|].
  - destruct Hc as (Hl & Hv & Hx). rewrite Hl. cbn. rewrite Hv.
    assert (R : expired creds && truthy (refresh_token creds) = false).
    { destruct Hx as [-> | ->]; [reflexivity|apply andb_false_r]. }
    rewrite R, Hf. cbn. rewrite Hs. cbn.
    repeat split; try reflexivity. rewrite <- !app_assoc. reflexivity.
  - rewrite Hf. cbn. rewrite Hs. cbn.
    repeat split; try reflexivity. rewrite <- !app_assoc. reflexivity.
Qed.

End Credentials.

(* ===================================================================== *)
(** * The paths of the handlers *)
(* ===================================================================== *)

Section Paths.

Context {platform : Platform} (w : World).

(** The window the add handler computes from the time slot. *)
Definition window (tracker : Tracker) (start_ end_ : datetime) : Prop :=
  exists parsed,
    strptime (text (get_slot tracker "time")) = inr parsed
    /\ localize parsed = Done start_
    /\ add_timedelta start_ 0 3600 = Done end_.

(** The runs of the add handler: what is uttered and which client
    wrappers are called, path by path. *)
Inductive add_path (tracker : Tracker) (st : State) : string -> list Call -> Prop :=
| add_incomplete :
    truthy (get_slot tracker "event") = false
    \/ truthy (get_slot tracker "time") = false ->
    add_path tracker st "Please provide both the event name and time." []
| add_unparsed error_text :
    strptime (text (get_slot tracker "time")) = inl error_text ->
    add_path tracker st (add_error_message (Exn ValueError error_text)) []
| add_acquisition_error start_ end_ e :
    window tracker start_ end_ ->
    fst (get_calendar_service w st) = Raised e ->
    add_path tracker st (add_error_message e) []
| add_no_service start_ end_ :
    window tracker start_ end_ ->
    fst (get_calendar_service w st) = Done None ->
    add_path tracker st service_failure []
| add_list_error start_ end_ service e :
    window tracker start_ end_ ->
    fst (get_calendar_service w st) = Done (Some service) ->
    listed w service (isoformat start_) (isoformat end_) = Raised e ->
    add_path tracker st (add_error_message e)
             [Call_get_events service (isoformat start_) (isoformat end_)]
| add_conflict start_ end_ service conflicting_event others :
    window tracker start_ end_ ->
    fst (get_calendar_service w st) = Done (Some service) ->
    listed w service (isoformat start_) (isoformat end_)
    = Done (conflicting_event :: others) ->
    add_path tracker st
             match start_of conflicting_event, summary conflicting_event with
             | Raised e, _ => add_error_message e
             | Done _, None => add_error_message (key_error "summary")
             | Done event_start, Some s => conflict_message s event_start
             end
             [Call_get_events service (isoformat start_) (isoformat end_)]
| add_insert_error start_ end_ service e :
    window tracker start_ end_ ->
    fst (get_calendar_service w st) = Done (Some service) ->
    listed w service (isoformat start_) (isoformat end_) = Done [] ->
    inserted w service (text (get_slot tracker "event")) start_ end_ = Raised e ->
    add_path tracker st (add_error_message e)
             [Call_get_events service (isoformat start_) (isoformat end_);
              Call_add_event service (text (get_slot tracker "event")) start_ end_]
| add_inserted start_ end_ service created :
    window tracker start_ end_ ->
    fst (get_calendar_service w st) = Done (Some service) ->
    listed w service (isoformat start_) (isoformat end_) = Done [] ->
    inserted w service (text (get_slot tracker "event")) start_ end_ = Done created ->
    add_path tracker st
             (if truthy_dict created
              then confirmation (text (get_slot tracker "event")) start_ end_
              else insert_failure)
             [Call_get_events service (isoformat start_) (isoformat end_);
              Call_add_event service (text (get_slot tracker "event")) start_ end_].

Lemma truthy_text (slot : option string) :
  truthy slot = true -> slot = Some (text slot) /\ text slot <> "".
Proof.
  destruct slot as [s|]; cbn; [|discriminate].
  destruct (String.eqb_spec s ""); [discriminate|]. auto.
Qed.

(** Every run of the add handler follows one of these paths: it returns
    the reset-all-slots event, utters one message and appends the calls
    of its path. *)
Lemma add_run_follows_a_path (tracker : Tracker) (st : State) :
  exists text new st',
    AddEventToCalendar.run w tracker st = (Done [AllSlotsReset], uttered text st')
    /\ messages st' = messages st
    /\ calls st' = (calls st ++ new)%list
    /\ add_path tracker st text new.
Proof.
  destruct (truthy (get_slot tracker "event")) eqn:Te;
    [destruct (truthy (get_slot tracker "time")) eqn:Tt|].
  2,3: eexists _, [], st; split;
         [unfold AddEventToCalendar.run; rewrite Te, ?Tt; reflexivity|];
         split; [reflexivity|]; split; [symmetry; apply app_nil_r|];
         apply add_incomplete; auto.
  destruct (truthy_text _ Te) as [He Hne]. destruct (truthy_text _ Tt) as [Ht Hnt].
  set (event_name := text (get_slot tracker "event")) in *.
  set (time_str := text (get_slot tracker "time")) in *.
  destruct (strptime time_str) as [error_text|parsed] eqn:Hp.
  { eexists _, [], st. split;
      [apply (add_run_unparsed w tracker event_name time_str error_text st
                He Hne Ht Hnt Hp)|].
    split; [reflexivity|]. split; [symmetry; apply app_nil_r|].
    apply add_unparsed. exact Hp. }
  destruct (parsed_window time_str parsed Hp) as (start_ & end_ & Hs & Hend & _).
  assert (W : window tracker start_ end_) by (exists parsed; auto).
  rewrite (add_run_paths w tracker event_name time_str parsed start_ end_ st
             He Hne Ht Hnt Hp Hs Hend).
  destruct (quiet_get_calendar_service w st) as (Qm & Qc & _).
  destruct (get_calendar_service w st) as [[[service|]|e] st1] eqn:Hsvc;
    cbn [fst snd] in *.
  - pose proof (get_events_value w service (isoformat start_) (isoformat end_) st1) as V.
    destruct (get_events_frame w service (isoformat start_) (isoformat end_) st1)
      as [Fm Fc].
    destruct (get_events w service (isoformat start_) (isoformat end_) st1)
      as [[[|ev evs]|e] st2]; cbn [fst snd] in *.
    + pose proof (add_event_value w service event_name start_ end_ st2) as V'.
      destruct (add_event_frame w service event_name start_ end_ st2) as [Gm Gc].
      destruct (add_event w service event_name start_ end_ st2) as [[created|e] st3];
        cbn [fst snd] in *;
        eexists _, _, st3; (split; [reflexivity|]);
        (split; [congruence|]);
        (split; [rewrite Gc, Fc, Qc, <- app_assoc; reflexivity|]).
      * apply add_inserted; auto; rewrite Hsvc; reflexivity.
      * apply add_insert_error; auto; rewrite Hsvc; reflexivity.
    + eexists _, _, st2. split; [reflexivity|]. split; [congruence|].
      split; [rewrite Fc, Qc; reflexivity|].
      apply (add_conflict tracker st start_ end_ service ev evs); auto;
        rewrite Hsvc; reflexivity.
    + eexists _, _, st2. split; [reflexivity|]. split; [congruence|].
      split; [rewrite Fc, Qc; reflexivity|].
      apply add_list_error; auto; rewrite Hsvc; reflexivity.
  - eexists _, [], st1. split; [reflexivity|]. split; [exact Qm|].
    split; [rewrite Qc; symmetry; apply app_nil_r|].
    apply (add_no_service tracker st start_ end_); auto; rewrite Hsvc; reflexivity.
  - eexists _, [], st1. split; [reflexivity|]. split; [exact Qm|].
    split; [rewrite Qc; symmetry; apply app_nil_r|].
    apply (add_acquisition_error tracker st start_ end_); auto;
      rewrite Hsvc; reflexivity.
Qed.

(** The runs of the get handler, path by path. *)
Inductive get_path (st : State) : string -> list Call -> Prop :=
| get_acquisition_error e :
    fst (get_calendar_service w st) = Raised e ->
    get_path st (get_error_message e) []
| get_no_service :
    fst (get_calendar_service w st) = Done None ->
    get_path st service_failure []
| get_overflow service e :
    fst (get_calendar_service w st) = Done (Some service) ->
    add_timedelta (utcnow w (S (clock st))) 365 0 = Raised e ->
    get_path st (get_error_message e) []
| get_list_error service next_year e :
    fst (get_calendar_service w st) = Done (Some service) ->
    add_timedelta (utcnow w (S (clock st))) 365 0 = Done next_year ->
    listed w service (isoformat (utcnow w (clock st)) ++ "Z")
           (isoformat next_year ++ "Z") = Raised e ->
    get_path st (get_error_message e)
             [Call_get_events service (isoformat (utcnow w (clock st)) ++ "Z")
                              (isoformat next_year ++ "Z")]
| get_listed service next_year events :
    fst (get_calendar_service w st) = Done (Some service) ->
    add_timedelta (utcnow w (S (clock st))) 365 0 = Done next_year ->
    listed w service (isoformat (utcnow w (clock st)) ++ "Z")
           (isoformat next_year ++ "Z") = Done events ->
    get_path st
             match events with
             | [] => no_events
             | _ :: _ =>
                 match GetEvent.format_events events with
                 | Done lines => upcoming lines
                 | Raised e => get_error_message e
                 end
             end
             [Call_get_events service (isoformat (utcnow w (clock st)) ++ "Z")
                              (isoformat next_year ++ "Z")].

(** Every run of the get handler follows one of these paths: it returns
    the empty list, utters one message and appends the calls of its path. *)
Lemma get_run_follows_a_path (tracker : Tracker) (st : State) :
  exists text new st',
    GetEvent.run w tracker st = (Done [], uttered text st')
    /\ messages st' = messages st
    /\ calls st' = (calls st ++ new)%list
    /\ get_path st text new.
Proof.
  rewrite get_run_paths.
  destruct (quiet_get_calendar_service w st) as (Qm & Qc & Qk).
  destruct (get_calendar_service w st) as [[[service|]|e] st1] eqn:Hsvc;
    cbn [fst snd] in *.
  - cbv zeta. rewrite Qk.
    destruct (add_timedelta (utcnow w (S (clock st))) 365 0) as [next_year|e] eqn:Hw.
    + match goal with
      | |- context [get_events w service ?a ?b ?s] =>
          pose proof (get_events_value w service a b s) as V;
          destruct (get_events_frame w service a b s) as [Fm Fc];
          destruct (get_events w service a b s) as [[events|e] st3]
      end; cbn [fst snd] in *; cbn [now snd calls messages] in Fm, Fc.
      * exists (match events with
                | [] => no_events
                | _ :: _ =>
                    match GetEvent.format_events events with
                    | Done lines => upcoming lines
                    | Raised e => get_error_message e
                    end
                end), [Call_get_events service
                         (isoformat (utcnow w (clock st)) ++ "Z")
                         (isoformat next_year ++ "Z")], st3.
        split; [destruct events; reflexivity|].
        split; [rewrite Fm; exact Qm|]. split; [rewrite Fc, Qc; reflexivity|].
        apply get_listed; auto; rewrite Hsvc; reflexivity.
      * eexists _, _, st3. split; [reflexivity|].
        split; [rewrite Fm; exact Qm|]. split; [rewrite Fc, Qc; reflexivity|].
        apply get_list_error; auto; rewrite Hsvc; reflexivity.
    + eexists _, [], _. split; [reflexivity|]. split; [exact Qm|].
      split; [cbn; rewrite Qc; symmetry; apply app_nil_r|].
      apply (get_overflow st service); auto; rewrite Hsvc; reflexivity.
  - eexists _, [], st1. split; [reflexivity|]. split; [exact Qm|].
    split; [rewrite Qc; symmetry; apply app_nil_r|].
    apply get_no_service; rewrite Hsvc; reflexivity.
  - eexists _, [], st1. split; [reflexivity|]. split; [exact Qm|].
    split; [rewrite Qc; symmetry; apply app_nil_r|].
    apply get_acquisition_error; rewrite Hsvc; reflexivity.
Qed.

(** X8.  When the event slot or the time slot is unset or empty, the add
    handler utters "Please provide both the event name and time.",
    returns the reset-all-slots event and does nothing else: the token
    cache is not read, nothing is printed and no client wrapper is
    called. *)
Theorem incomplete_request_touches_nothing (tracker : Tracker) (st : State) :
  truthy (get_slot tracker "event") = false
  \/ truthy (get_slot tracker "time") = false ->
  AddEventToCalendar.run w tracker st
  = (Done [AllSlotsReset],
     uttered "Please provide both the event name and time." st).
Proof.
  intros [H|H]; unfold AddEventToCalendar.run; rewrite H;
    [|rewrite orb_true_r]; reflexivity.
Qed.

(** X9.  The time is parsed before the service is acquired: with both
    slots filled and a time that does not parse, the run changes nothing
    but the dispatcher, so the token cache is neither read nor written
    and no authorization is started. *)
Theorem unparsed_time_skips_authentication
        (tracker : Tracker) (st : State) (event_name time_str error_text : string) :
  get_slot tracker "event" = Some event_name -> event_name <> "" ->
  get_slot tracker "time" = Some time_str -> time_str <> "" ->
  strptime time_str = inl error_text ->
  token_pickle (snd (AddEventToCalendar.run w tracker st)) = token_pickle st
  /\ stdout (snd (AddEventToCalendar.run w tracker st)) = stdout st
  /\ clock (snd (AddEventToCalendar.run w tracker st)) = clock st
  /\ calls (snd (AddEventToCalendar.run w tracker st)) = calls st.
Proof.
  intros He Hne Ht Hnt Hp.
  rewrite (add_run_unparsed w tracker event_name time_str error_text st
             He Hne Ht Hnt Hp).
  repeat split; reflexivity.
Qed.

(** X10.  Every run of the add handler utters exactly one message, after
    those already uttered. *)
Theorem add_utters_exactly_one_message (tracker : Tracker) (st : State) :
  exists text,
    messages (snd (AddEventToCalendar.run w tracker st))
    = (messages st ++ [text])%list.
Proof.
  destruct (add_run_follows_a_path tracker st) as (text & new & st' & R & Hm & _).
  exists text. rewrite R. cbn [snd]. rewrite messages_uttered, Hm. reflexivity.
Qed.

(** X11.  The calls of a run of the add handler are none, or one conflict
    query, or one conflict query followed by one insertion.  The query
    is over the window computed from the time slot, whose end is 3600
    seconds after its start; the insertion is for the text of the event
    slot over that same window, and is made only when the query returned
    no event. *)
Theorem add_call_discipline (tracker : Tracker) (st : State) :
  exists new,
    calls (snd (AddEventToCalendar.run w tracker st)) = (calls st ++ new)%list
    /\ (new = []
        \/ exists service start_ end_,
            window tracker start_ end_
            /\ utc_seconds end_ = utc_seconds start_ + 3600
            /\ (new = [Call_get_events service (isoformat start_) (isoformat end_)]
                \/ (listed w service (isoformat start_) (isoformat end_) = Done []
                    /\ new = [Call_get_events service
                                (isoformat start_) (isoformat end_);
                              Call_add_event service
                                (text (get_slot tracker "event")) start_ end_]))).
Proof.
  destruct (add_run_follows_a_path tracker st) as (text & new & st' & R & _ & Hc & P).
  exists new. rewrite R. cbn [snd]. rewrite calls_uttered. split; [exact Hc|].
  assert (Hour : forall start_ end_,
             window tracker start_ end_ ->
             utc_seconds end_ = utc_seconds start_ + 3600).
  { intros start_ end_ (parsed & _ & _ & Hend).
    apply add_timedelta_instant in Hend. lia. }
  destruct P; auto; right; exists service, start_, end_; auto 6.
Qed.

(** X12.  The add handler never confirms what it did not insert: when the
    message it utters begins with "Event '", the conflict query returned
    no event, the insertion was called over the window and the remote
    service answered it with a non-empty resource. *)
Theorem confirmation_implies_insertion
        (tracker : Tracker) (st : State) (uttered_text : string) :
  messages (snd (AddEventToCalendar.run w tracker st))
  = (messages st ++ [uttered_text])%list ->
  String.prefix "Event '" uttered_text = true ->
  exists service start_ end_ created,
    window tracker start_ end_
    /\ listed w service (isoformat start_) (isoformat end_) = Done []
    /\ events_insert w service
         (new_event (text (get_slot tracker "event")) start_ end_) = Done created
    /\ created <> []
    /\ calls (snd (AddEventToCalendar.run w tracker st))
       = (calls st
          ++ [Call_get_events service (isoformat start_) (isoformat end_);
              Call_add_event service (text (get_slot tracker "event"))
                             start_ end_])%list.
Proof.
  destruct (add_run_follows_a_path tracker st) as (text' & new & st' & R & Hm & Hc & P).
  rewrite R. cbn [snd]. rewrite messages_uttered, calls_uttered, Hm, Hc.
  intros E Hpre. apply app_inv_head in E. injection E as ->.
  destruct P as [ | error_text | ? ? e | | ? ? ? e | ? ? ? ev | ? ? ? e
                  | start_ end_ service created W Hsvc Hl Hi ].
  - discriminate Hpre.
  - discriminate Hpre.
  - unfold add_error_message in Hpre. destruct (is_ValueError e); discriminate Hpre.
  - discriminate Hpre.
  - unfold add_error_message in Hpre. destruct (is_ValueError e); discriminate Hpre.
  - destruct (start_of ev) as [event_start|e]; [destruct (summary ev)|];
      try discriminate Hpre.
    unfold add_error_message in Hpre. destruct (is_ValueError e); discriminate Hpre.
  - unfold add_error_message in Hpre. destruct (is_ValueError e); discriminate Hpre.
  - destruct created as [[|field fields]|]; try discriminate Hpre.
    unfold inserted in Hi.
    destruct (events_insert w service _) as [c|e] eqn:Hins.
    + injection Hi as ->. exists service, start_, end_, (field :: fields).
      repeat split; auto. discriminate.
    + destruct (is_HttpError e); discriminate.
Qed.

(** X13.  Every run of the get handler utters exactly one message, after
    those already uttered. *)
Theorem get_utters_exactly_one_message (tracker : Tracker) (st : State) :
  exists text,
    messages (snd (GetEvent.run w tracker st)) = (messages st ++ [text])%list.
Proof.
  destruct (get_run_follows_a_path tracker st) as (text & new & st' & R & Hm & _).
  exists text. rewrite R. cbn [snd]. rewrite messages_uttered, Hm. reflexivity.
Qed.

(** X14.  The get handler never inserts: a run makes no call, or one
    listing, made with the service it acquired, from the first reading
    of the clock to the instant 365 days after the second reading, both
    written in ISO format with a trailing "Z". *)
Theorem get_call_discipline (tracker : Tracker) (st : State) :
  exists new,
    calls (snd (GetEvent.run w tracker st)) = (calls st ++ new)%list
    /\ (new = []
        \/ exists service next_year,
            fst (get_calendar_service w st) = Done (Some service)
            /\ add_timedelta (utcnow w (S (clock st))) 365 0 = Done next_year
            /\ utc_seconds next_year
               = utc_seconds (utcnow w (S (clock st))) + 365 * 86400
            /\ new = [Call_get_events service
                        (isoformat (utcnow w (clock st)) ++ "Z")
                        (isoformat next_year ++ "Z")]).
Proof.
  destruct (get_run_follows_a_path tracker st) as (text & new & st' & R & _ & Hc & P).
  exists new. rewrite R. cbn [snd]. rewrite calls_uttered. split; [exact Hc|].
  destruct P as [ | | | service next_year e Hsvc Hw _
                  | service next_year events Hsvc Hw _ ]; auto;
    right; exists service, next_year;
    pose proof (add_timedelta_instant _ _ _ _ Hw) as [Hu _];
    repeat split; auto; lia.
Qed.

(** X15.  Neither client wrapper lets an [HttpError] out: an exception
    that leaves [get_events] or [add_event] is not an [HttpError], and it
    is the one the remote request raised. *)
Theorem wrappers_never_raise_http_errors
        (service : Service) (time_min time_max event_name : string)
        (event_start event_end : datetime) (st : State) (e : exn) :
  (fst (get_events w service time_min time_max st) = Raised e ->
   is_HttpError e = false
   /\ events_list w service time_min time_max = Raised e)
  /\ (fst (add_event w service event_name event_start event_end st) = Raised e ->
      is_HttpError e = false
      /\ events_insert w service (new_event event_name event_start event_end)
         = Raised e).
Proof.
  rewrite get_events_value, add_event_value. unfold listed, inserted.
  split; intros H.
  - destruct (events_list w service time_min time_max) as [[items|]|e'];
      try discriminate H.
    destruct (is_HttpError e') eqn:Hh; [discriminate H|].
    injection H as <-. auto.
  - destruct (events_insert w service _) as [created|e']; [discriminate H|].
    destruct (is_HttpError e') eqn:Hh; [discriminate H|].
    injection H as <-. auto.
Qed.

Section AddErrors.

Variables (tracker : Tracker) (st : State) (event_name time_str : string)
          (parsed start_ end_ : datetime).
Hypothesis Hevent : get_slot tracker "event" = Some event_name.
Hypothesis Hevent_filled : event_name <> "".
Hypothesis Htime : get_slot tracker "time" = Some time_str.
Hypothesis Htime_filled : time_str <> "".
Hypothesis Hparse : strptime time_str = inr parsed.
Hypothesis Hstart : localize parsed = Done start_.
Hypothesis Hend : add_timedelta start_ 0 3600 = Done end_.

(** An exception out of the service acquisition ends the run in the
    catch clauses, before any call. *)
Lemma add_run_acquisition_raised (e : exn) :
  fst (get_calendar_service w st) = Raised e ->
  exists st1,
    messages st1 = messages st /\ calls st1 = calls st
    /\ AddEventToCalendar.run w tracker st
       = (Done [AllSlotsReset], uttered (add_error_message e) st1).
Proof.
  intros Hsvc.
  rewrite (add_run_paths w tracker event_name time_str parsed start_ end_ st
             Hevent Hevent_filled Htime Htime_filled Hparse Hstart Hend).
  destruct (quiet_get_calendar_service w st) as (Qm & Qc & _).
  destruct (get_calendar_service w st) as [r st1]. cbn [fst snd] in *. subst r.
  exists st1. auto.
Qed.

(** An exception out of the conflict query ends the run in the catch
    clauses, after that one call. *)
Lemma add_run_list_raised (service : Service) (e : exn) :
  fst (get_calendar_service w st) = Done (Some service) ->
  listed w service (isoformat start_) (isoformat end_) = Raised e ->
  exists st2,
    messages st2 = messages st
    /\ calls st2
       = (calls st ++ [Call_get_events service (isoformat start_) (isoformat end_)])%list
    /\ AddEventToCalendar.run w tracker st
       = (Done [AllSlotsReset], uttered (add_error_message e) st2).
Proof.
  intros Hsvc Hl.
  rewrite (add_run_paths w tracker event_name time_str parsed start_ end_ st
             Hevent Hevent_filled Htime Htime_filled Hparse Hstart Hend).
  destruct (quiet_get_calendar_service w st) as (Qm & Qc & _).
  destruct (get_calendar_service w st) as [r st1]. cbn [fst snd] in *. subst r.
  pose proof (get_events_value w service (isoformat start_) (isoformat end_) st1) as V.
  destruct (get_events_frame w service (isoformat start_) (isoformat end_) st1)
    as [Fm Fc].
  destruct (get_events w service (isoformat start_) (isoformat end_) st1) as [r st2].
  cbn [fst snd] in *. rewrite Hl in V. subst r.
  exists st2. split; [congruence|]. split; [congruence|reflexivity].
Qed.

(** An exception out of the insertion ends the run in the catch clauses,
    after both calls. *)
Lemma add_run_insert_raised (service : Service) (e : exn) :
  fst (get_calendar_service w st) = Done (Some service) ->
  listed w service (isoformat start_) (isoformat end_) = Done [] ->
  inserted w service event_name start_ end_ = Raised e ->
  exists st3,
    messages st3 = messages st
    /\ calls st3
       = (calls st ++ [Call_get_events service (isoformat start_) (isoformat end_);
                       Call_add_event service event_name start_ end_])%list
    /\ AddEventToCalendar.run w tracker st
       = (Done [AllSlotsReset], uttered (add_error_message e) st3).
Proof.
  intros Hsvc Hl Hi.
  destruct (add_run_listed w tracker event_name time_str parsed start_ end_ service st
              Hevent Hevent_filled Htime Htime_filled Hparse Hstart Hend Hsvc [] Hl)
    as (st2 & Hm & Hc & Hrun).
  rewrite Hrun.
  pose proof (add_event_value w service event_name start_ end_ st2) as V.
  destruct (add_event_frame w service event_name start_ end_ st2) as [Fm Fc].
  destruct (add_event w service event_name start_ end_ st2) as [r st3].
  cbn [fst snd] in *. rewrite Hi in V. subst r.
  exists st3. split; [congruence|]. split; [|reflexivity].
  rewrite Fc, Hc, <- app_assoc. reflexivity.
Qed.

End AddErrors.

(** X16.  A conflict query that fails with an [HttpError] counts as no
    conflict: the add handler goes on to call [add_event] over the
    window, as it does when the calendar is free. *)
Theorem failed_conflict_query_counts_as_free
        (tracker : Tracker) (st : State) (event_name time_str : string)
        (parsed start_ end_ : datetime) (service : Service) (e : exn) :
  get_slot tracker "event" = Some event_name -> event_name <> "" ->
  get_slot tracker "time" = Some time_str -> time_str <> "" ->
  strptime time_str = inr parsed ->
  localize parsed = Done start_ ->
  add_timedelta start_ 0 3600 = Done end_ ->
  fst (get_calendar_service w st) = Done (Some service) ->
  events_list w service (isoformat start_) (isoformat end_) = Raised e ->
  is_HttpError e = true ->
  calls (snd (AddEventToCalendar.run w tracker st))
  = (calls st ++ [Call_get_events service (isoformat start_) (isoformat end_);
                  Call_add_event service event_name start_ end_])%list.
Proof.
  intros He Hne Ht Hnt Hp Hs Hend Hsvc Hlist Hhttp.
  assert (Hl : listed w service (isoformat start_) (isoformat end_) = Done []).
  { unfold listed. rewrite Hlist, Hhttp. reflexivity. }
  destruct (inserted w service event_name start_ end_) as [created|e'] eqn:Hi.
  - destruct (add_run_inserted w tracker event_name time_str parsed start_ end_
                service st He Hne Ht Hnt Hp Hs Hend Hsvc created Hl Hi)
      as (st3 & _ & Hc & Hrun).
    rewrite Hrun. exact Hc.
  - destruct (add_run_insert_raised tracker st event_name time_str parsed start_ end_
                He Hne Ht Hnt Hp Hs Hend service e' Hsvc Hl Hi)
      as (st3 & _ & Hc & Hrun).
    rewrite Hrun. exact Hc.
Qed.

(** X17.  A conflict query that fails with any other exception ends the
    run: the catch clauses utter their message for it ("Time parsing
    error: ..." for a [ValueError], "An unexpected error occurred: ..."
    otherwise), nothing is inserted, and the reset-all-slots event is
    returned. *)
Theorem broken_conflict_query_aborts_the_booking
        (tracker : Tracker) (st : State) (event_name time_str : string)
        (parsed start_ end_ : datetime) (service : Service) (e : exn) :
  get_slot tracker "event" = Some event_name -> event_name <> "" ->
  get_slot tracker "time" = Some time_str -> time_str <> "" ->
  strptime time_str = inr parsed ->
  localize parsed = Done start_ ->
  add_timedelta start_ 0 3600 = Done end_ ->
  fst (get_calendar_service w st) = Done (Some service) ->
  events_list w service (isoformat start_) (isoformat end_) = Raised e ->
  is_HttpError e = false ->
  fst (AddEventToCalendar.run w tracker st) = Done [AllSlotsReset]
  /\ messages (snd (AddEventToCalendar.run w tracker st))
     = (messages st
        ++ [if is_ValueError e then
              ("Time parsing error: " ++ exn_str e
               ++ ". Please ensure the time is in 'DD/MM/YY HH:MM:SS' format.")%string
            else ("An unexpected error occurred: " ++ exn_str e)%string])%list
  /\ calls (snd (AddEventToCalendar.run w tracker st))
     = (calls st ++ [Call_get_events service (isoformat start_) (isoformat end_)])%list.
Proof.
  intros He Hne Ht Hnt Hp Hs Hend Hsvc Hlist Hother.
  assert (Hl : listed w service (isoformat start_) (isoformat end_) = Raised e).
  { unfold listed. rewrite Hlist, Hother. reflexivity. }
  destruct (add_run_list_raised tracker st event_name time_str parsed start_ end_
              He Hne Ht Hnt Hp Hs Hend service e Hsvc Hl)
    as (st2 & Hm & Hc & Hrun).
  rewrite Hrun. cbn [fst snd]. rewrite messages_uttered, calls_uttered, Hm.
  split; [reflexivity|]. split; [reflexivity|exact Hc].
Qed.

(** X18.  An insertion that fails with an exception other than
    [HttpError] is reported by the catch clauses, after both calls were
    made; the handler still returns the reset-all-slots event. *)
Theorem broken_insertion_is_reported_by_the_catch_all
        (tracker : Tracker) (st : State) (event_name time_str : string)
        (parsed start_ end_ : datetime) (service : Service) (e : exn) :
  get_slot tracker "event" = Some event_name -> event_name <> "" ->
  get_slot tracker "time" = Some time_str -> time_str <> "" ->
  strptime time_str = inr parsed ->
  localize parsed = Done start_ ->
  add_timedelta start_ 0 3600 = Done end_ ->
  fst (get_calendar_service w st) = Done (Some service) ->
  listed w service (isoformat start_) (isoformat end_) = Done [] ->
  events_insert w service (new_event event_name start_ end_) = Raised e ->
  is_HttpError e = false ->
  fst (AddEventToCalendar.run w tracker st) = Done [AllSlotsReset]
  /\ messages (snd (AddEventToCalendar.run w tracker st))
     = (messages st
        ++ [if is_ValueError e then
              ("Time parsing error: " ++ exn_str e
               ++ ". Please ensure the time is in 'DD/MM/YY HH:MM:SS' format.")%string
            else ("An unexpected error occurred: " ++ exn_str e)%string])%list
  /\ calls (snd (AddEventToCalendar.run w tracker st))
     = (calls st ++ [Call_get_events service (isoformat start_) (isoformat end_);
                     Call_add_event service event_name start_ end_])%list.
Proof.
  intros He Hne Ht Hnt Hp Hs Hend Hsvc Hl Hins Hother.
  assert (Hi : inserted w service event_name start_ end_ = Raised e).
  { unfold inserted. rewrite Hins, Hother. reflexivity. }
  destruct (add_run_insert_raised tracker st event_name time_str parsed start_ end_
              He Hne Ht Hnt Hp Hs Hend service e Hsvc Hl Hi)
    as (st3 & Hm & Hc & Hrun).
  rewrite Hrun. cbn [fst snd]. rewrite messages_uttered, calls_uttered, Hm.
  split; [reflexivity|]. split; [reflexivity|exact Hc].
Qed.

(** X19.  The [except ValueError] clause covers the whole [try] body: when
    the time parses and the service acquisition then raises, the add
    handler makes no call and utters the message of the catch clauses
    for that exception, so a [ValueError] of the acquisition is reported
    as "Time parsing error: ...". *)
Theorem acquisition_error_is_reported_like_a_parse_error
        (tracker : Tracker) (st : State) (event_name time_str : string)
        (parsed : datetime) (e : exn) :
  get_slot tracker "event" = Some event_name -> event_name <> "" ->
  get_slot tracker "time" = Some time_str -> time_str <> "" ->
  strptime time_str = inr parsed ->
  fst (get_calendar_service w st) = Raised e ->
  fst (AddEventToCalendar.run w tracker st) = Done [AllSlotsReset]
  /\ messages (snd (AddEventToCalendar.run w tracker st))
     = (messages st
        ++ [if is_ValueError e then
              ("Time parsing error: " ++ exn_str e
               ++ ". Please ensure the time is in 'DD/MM/YY HH:MM:SS' format.")%string
            else ("An unexpected error occurred: " ++ exn_str e)%string])%list
  /\ calls (snd (AddEventToCalendar.run w tracker st)) = calls st.
Proof.
  intros He Hne Ht Hnt Hp Hsvc.
  destruct (parsed_window time_str parsed Hp) as (start_ & end_ & Hs & Hend & _).
  destruct (add_run_acquisition_raised tracker st event_name time_str parsed
              start_ end_ He Hne Ht Hnt Hp Hs Hend e Hsvc)
    as (st1 & Hm & Hc & Hrun).
  rewrite Hrun. cbn [fst snd]. rewrite messages_uttered, calls_uttered, Hm, Hc.
  repeat split; reflexivity.
Qed.

(** An exception out of the listing ends the run in the catch clause. *)
Lemma get_run_list_raised (tracker : Tracker) (st : State) (service : Service)
      (next_year : datetime) (e : exn) :
  fst (get_calendar_service w st) = Done (Some service) ->
  add_timedelta (utcnow w (S (clock st))) 365 0 = Done next_year ->
  listed w service (isoformat (utcnow w (clock st)) ++ "Z")
         (isoformat next_year ++ "Z") = Raised e ->
  exists st3,
    messages st3 = messages st
    /\ GetEvent.run w tracker st = (Done [], uttered (get_error_message e) st3).
Proof.
  intros Hsvc Hw Hl. rewrite get_run_paths.
  destruct (quiet_get_calendar_service w st) as (Qm & _ & Qk).
  destruct (get_calendar_service w st) as [r st1]. cbn [fst snd] in *. subst r.
  cbv zeta. rewrite Qk, Hw.
  match goal with
  | |- context [get_events w service ?a ?b ?s] =>
      pose proof (get_events_value w service a b s) as V;
      destruct (get_events_frame w service a b s) as [Fm _];
      destruct (get_events w service a b s) as [r st3]
  end.
  cbn [fst snd] in *. rewrite Hl in V. subst r.
  exists st3. split; [rewrite Fm; exact Qm|reflexivity].
Qed.

(** X20.  The get handler cannot tell a failed listing from an empty
    calendar: when the list request raises an [HttpError] it utters
    "You have no upcoming events."; any other exception of the request is
    uttered as "An error occurred while fetching events: ...". *)
Theorem failed_listing_reads_as_no_events
        (tracker : Tracker) (st : State) (service : Service)
        (next_year : datetime) (e : exn) :
  fst (get_calendar_service w st) = Done (Some service) ->
  add_timedelta (utcnow w (S (clock st))) 365 0 = Done next_year ->
  events_list w service (isoformat (utcnow w (clock st)) ++ "Z")
              (isoformat next_year ++ "Z") = Raised e ->
  messages (snd (GetEvent.run w tracker st))
  = (messages st
     ++ [if is_HttpError e then "You have no upcoming events."
         else ("An error occurred while fetching events: " ++ exn_str e)%string])%list.
Proof.
  intros Hsvc Hw Hlist.
  destruct (is_HttpError e) eqn:Hh.
  - destruct (get_run_listed w tracker st service next_year Hsvc Hw [])
      as (st3 & Hm & Hrun).
    { unfold listed. rewrite Hlist, Hh. reflexivity. }
    rewrite Hrun. cbn [snd]. rewrite messages_uttered, Hm. reflexivity.
  - destruct (get_run_list_raised tracker st service next_year e Hsvc Hw)
      as (st3 & Hm & Hrun).
    { unfold listed. rewrite Hlist, Hh. reflexivity. }
    rewrite Hrun. cbn [snd]. rewrite messages_uttered, Hm. reflexivity.
Qed.

(** X21.  When the service acquisition raises, the get handler reads no
    clock, makes no call, utters "An error occurred while fetching
    events: ..." with the text of the exception and returns the empty
    list. *)
Theorem acquisition_error_is_reported_as_fetch_error
        (tracker : Tracker) (st : State) (e : exn) :
  fst (get_calendar_service w st) = Raised e ->
  fst (GetEvent.run w tracker st) = Done []
  /\ messages (snd (GetEvent.run w tracker st))
     = (messages st
        ++ [("An error occurred while fetching events: " ++ exn_str e)%string])%list
  /\ calls (snd (GetEvent.run w tracker st)) = calls st
  /\ clock (snd (GetEvent.run w tracker st)) = clock st.
Proof.
  intros Hsvc. rewrite get_run_paths.
  destruct (quiet_get_calendar_service w st) as (Qm & Qc & Qk).
  destruct (get_calendar_service w st) as [r st1]. cbn [fst snd] in *. subst r.
  cbn [fst snd]. rewrite messages_uttered, calls_uttered, Qm, Qc.
  repeat split; try reflexivity. exact Qk.
Qed.

Lemma format_events_needs_every_start (events : list Event) :
  Exists (fun event => start event = None) events ->
  GetEvent.format_events events = Raised (key_error "start").
Proof.
  induction events as [|event events IH]; intros Hex.
  - inversion Hex.
  - cbn [GetEvent.format_events]. unfold start_of.
    destruct (start event) as [s|] eqn:Hs; [|reflexivity].
    rewrite IH; [reflexivity|].
    inversion Hex as [? ? Hno|? ? Hrest]; subst; [congruence|exact Hrest].
Qed.

(** X22.  The listing is all or nothing: when any of the returned events,
    wherever it stands, has no start, the get handler writes no line at
    all and utters "An error occurred while fetching events: 'start'". *)
Theorem one_event_without_start_hides_the_listing
        (tracker : Tracker) (st : State) (service : Service)
        (next_year : datetime) (events : list Event) :
  fst (get_calendar_service w st) = Done (Some service) ->
  add_timedelta (utcnow w (S (clock st))) 365 0 = Done next_year ->
  listed w service (isoformat (utcnow w (clock st)) ++ "Z")
         (isoformat next_year ++ "Z") = Done events ->
  Exists (fun event => start event = None) events ->
  fst (GetEvent.run w tracker st) = Done []
  /\ messages (snd (GetEvent.run w tracker st))
     = (messages st ++ ["An error occurred while fetching events: 'start'"])%list.
Proof.
  intros Hsvc Hw Hl Hex.
  destruct (get_run_listed w tracker st service next_year Hsvc Hw events Hl)
    as (st3 & Hm & Hrun).
  rewrite Hrun, (format_events_needs_every_start events Hex).
  destruct events as [|event events']; [inversion Hex|].
  cbn [fst snd]. rewrite messages_uttered, Hm. split; reflexivity.
Qed.

End Paths.

(* ===================================================================== *)
(** * The properties on the reference platform *)
(* ===================================================================== *)

#[local] Existing Instance reference_platform.

(** The example of the specification: "Team Sync" at 01/06/24 09:00:00,
    no conflicts. *)
Example team_sync_is_booked :
  AddEventToCalendar.run quiet_world team_sync logged_in
  = (Done [AllSlotsReset],
     {| token_pickle := Some cached_credentials;
        clock := 0;
        stdout := ["Loaded credentials from token.pickle";
                   "Created event: https://calendar.example/e1"];
        messages :=
          ["Event 'Team Sync' successfully added to your calendar from 01/06/24 09:00:00 to 01/06/24 10:00:00."];
        calls :=
          [Call_get_events the_service
                           "2024-06-01T09:00:00+07:00" "2024-06-01T10:00:00+07:00";
           Call_add_event the_service "Team Sync" nine_hcm ten_hcm] |}).
Proof. vm_compute. reflexivity. Qed.

(** The body submitted for that event. *)
Example team_sync_body :
  new_event "Team Sync" nine_hcm ten_hcm
  = {| new_summary := "Team Sync";
       new_location := "Default Location";
       new_description := "Automatically added event";
       new_start := {| et_dateTime := "2024-06-01T09:00:00+07:00";
                       et_timeZone := "Asia/Ho_Chi_Minh" |};
       new_end := {| et_dateTime := "2024-06-01T10:00:00+07:00";
                     et_timeZone := "Asia/Ho_Chi_Minh" |};
       new_reminders_useDefault := true |}.
Proof. vm_compute. reflexivity. Qed.

(** The other example of the specification: a time in the wrong format. *)
Example wrong_format_is_reported :
  messages (snd (AddEventToCalendar.run
                   quiet_world (tracker_of (Some "Team Sync") (Some "2024-06-01"))
                   logged_in))
  = ["Time parsing error: time data '2024-06-01' does not match format '%d/%m/%y %H:%M:%S'. Please ensure the time is in 'DD/MM/YY HH:MM:SS' format."].
Proof. vm_compute. reflexivity. Qed.

(** An hour added late in the day of 31 December crosses the year. *)
Example new_year_window :
  add_timedelta (mkdt 2024 12 31 23 30 0 0 (Some 420)) 0 3600
  = Done (mkdt 2025 1 1 0 30 0 0 (Some 420)).
Proof. vm_compute. reflexivity. Qed.

(** *** C1 *)

(** The amended C1 at the example of the specification. *)
Lemma C1_witness :
  messages (snd (AddEventToCalendar.run quiet_world team_sync logged_in))
  = ["Event 'Team Sync' successfully added to your calendar from 01/06/24 09:00:00 to 01/06/24 10:00:00."]
  /\ calls (snd (AddEventToCalendar.run quiet_world team_sync logged_in))
     = [Call_get_events the_service
                        "2024-06-01T09:00:00+07:00" "2024-06-01T10:00:00+07:00";
        Call_add_event the_service "Team Sync" nine_hcm ten_hcm]
  /\ utc_seconds ten_hcm = utc_seconds nine_hcm + 3600.
Proof.
  destruct (C1_insert_one_hour_after_start
              quiet_world team_sync logged_in "Team Sync" "01/06/24 09:00:00"
              nine the_service)
    as (start_ & end_ & Hs & He & Hu & H);
    [reflexivity | discriminate | reflexivity | discriminate
     | reflexivity | reflexivity |].
  vm_compute in Hs. injection Hs as <-.
  vm_compute in He. injection He as <-.
  destruct (H eq_refl) as (_ & Hc & Hm).
  destruct (Hm _ eq_refl ltac:(discriminate)) as (Hm' & _).
  split; [exact Hm'|]. split; [exact Hc|exact Hu].
Defined.

(** C1 as stated fails when the insertion fails: the time parses, the
    service is available, the conflict query returns no events, and yet
    the one message uttered is not the confirmation. *)
Lemma C1_counterexample :
  let w := with_calendar quiet_world (Done (Some [])) (Raised http_403) in
  strptime "01/06/24 09:00:00" = inr nine
  /\ fst (get_calendar_service w logged_in) = Done (Some the_service)
  /\ listed w the_service "2024-06-01T09:00:00+07:00" "2024-06-01T10:00:00+07:00"
     = Done []
  /\ calls (snd (AddEventToCalendar.run w team_sync logged_in))
     = [Call_get_events the_service
                        "2024-06-01T09:00:00+07:00" "2024-06-01T10:00:00+07:00";
        Call_add_event the_service "Team Sync" nine_hcm ten_hcm]
  /\ messages (snd (AddEventToCalendar.run w team_sync logged_in))
     = ["Failed to add the event due to an internal error."]
  /\ messages (snd (AddEventToCalendar.run w team_sync logged_in))
     <> [confirmation "Team Sync" nine_hcm ten_hcm].
Proof.
  cbv zeta. repeat split; try (vm_compute; reflexivity).
  vm_compute. discriminate.
Qed.

(** *** C2 *)

(** The conflict report at an ordinary conflict. *)
Example conflict_is_reported :
  let w := with_calendar quiet_world (Done (Some [standup; holiday])) (Done []) in
  messages (snd (AddEventToCalendar.run w team_sync logged_in))
  = ["Cannot create new event because the time slot is already taken by 'Standup' at 2024-06-01T09:30:00+07:00."]
  /\ calls (snd (AddEventToCalendar.run w team_sync logged_in))
     = [Call_get_events the_service
                        "2024-06-01T09:00:00+07:00" "2024-06-01T10:00:00+07:00"].
Proof. vm_compute. split; reflexivity. Qed.

(** C2 at a conflicting event without a title: the conflict query
    returns it, nothing is inserted, but the message uttered names
    neither a summary nor the start of the event; the get handler, on
    the same event, writes "No Title". *)
Theorem C2_untitled_conflict_is_not_reported :
  let w := with_calendar quiet_world (Done (Some [untitled])) (Done []) in
  listed w the_service "2024-06-01T09:00:00+07:00" "2024-06-01T10:00:00+07:00"
  = Done [untitled]
  /\ calls (snd (AddEventToCalendar.run w team_sync logged_in))
     = [Call_get_events the_service
                        "2024-06-01T09:00:00+07:00" "2024-06-01T10:00:00+07:00"]
  /\ messages (snd (AddEventToCalendar.run w team_sync logged_in))
     = ["An unexpected error occurred: 'summary'"]
  /\ messages (snd (GetEvent.run w team_sync logged_in))
     = [("Your upcoming events:" ++ nl
         ++ "2024-06-01T09:30:00+07:00: No Title")%string].
Proof. vm_compute. repeat split; reflexivity. Qed.

(** *** C3 *)

Lemma C3_witness :
  fst (AddEventToCalendar.run
         quiet_world (tracker_of (Some "Team Sync") (Some "2024-06-01")) logged_in)
  = Done [AllSlotsReset]
  /\ messages (snd (AddEventToCalendar.run
                      quiet_world (tracker_of (Some "Team Sync") (Some "2024-06-01"))
                      logged_in))
     = ["Time parsing error: time data '2024-06-01' does not match format '%d/%m/%y %H:%M:%S'. Please ensure the time is in 'DD/MM/YY HH:MM:SS' format."]
  /\ calls (snd (AddEventToCalendar.run
                   quiet_world (tracker_of (Some "Team Sync") (Some "2024-06-01"))
                   logged_in))
     = [].
Proof.
  apply (C3_parse_error_reported
           quiet_world (tracker_of (Some "Team Sync") (Some "2024-06-01")) logged_in
           "Team Sync" "2024-06-01"
           "time data '2024-06-01' does not match format '%d/%m/%y %H:%M:%S'");
    [reflexivity | discriminate | reflexivity | discriminate | reflexivity].
Defined.

(** *** C4 *)

Lemma C4_witness :
  let w := with_calendar quiet_world (Done (Some [standup; holiday; untitled])) (Done []) in
  fst (GetEvent.run w team_sync logged_in) = Done []
  /\ messages (snd (GetEvent.run w team_sync logged_in))
     = [("Your upcoming events:" ++ nl
         ++ "2024-06-01T09:30:00+07:00: Standup" ++ nl
         ++ "2024-06-02: Holiday" ++ nl
         ++ "2024-06-01T09:30:00+07:00: No Title")%string].
Proof.
  cbv zeta.
  apply (C4_upcoming_events_listed
           (with_calendar quiet_world (Done (Some [standup; holiday; untitled])) (Done []))
           team_sync logged_in the_service (mkdt 2025 5 31 8 0 0 250000 None)
           standup [holiday; untitled]);
    [reflexivity | reflexivity | reflexivity |].
  repeat constructor; discriminate.
Defined.

(** C4 as stated fails on a single ordinary event: the message is not
    the one line of that event, it starts with a heading.  It also fails
    on an event without a start: no line is written, the catch-all
    message is uttered. *)
Lemma C4_counterexample :
  let w := with_calendar quiet_world (Done (Some [standup])) (Done []) in
  let w' := with_calendar quiet_world (Done (Some [startless])) (Done []) in
  fst (get_calendar_service w logged_in) = Done (Some the_service)
  /\ listed w the_service "2024-05-31T08:00:00.250000Z" "2025-05-31T08:00:00.250000Z"
     = Done [standup]
  /\ calls (snd (GetEvent.run w team_sync logged_in))
     = [Call_get_events the_service
                        "2024-05-31T08:00:00.250000Z" "2025-05-31T08:00:00.250000Z"]
  /\ messages (snd (GetEvent.run w team_sync logged_in))
     = [("Your upcoming events:" ++ nl ++ "2024-06-01T09:30:00+07:00: Standup")%string]
  /\ messages (snd (GetEvent.run w team_sync logged_in))
     <> ["2024-06-01T09:30:00+07:00: Standup"]
  /\ messages (snd (GetEvent.run w' team_sync logged_in))
     = ["An error occurred while fetching events: 'start'"].
Proof.
  cbv zeta. repeat split; try (vm_compute; reflexivity).
  vm_compute. discriminate.
Qed.

(** *** C5 *)

Lemma C5_witness :
  fst (GetEvent.run quiet_world team_sync logged_in) = Done []
  /\ messages (snd (GetEvent.run quiet_world team_sync logged_in))
     = ["You have no upcoming events."].
Proof.
  apply (C5_no_upcoming_events
           quiet_world team_sync logged_in the_service
           (mkdt 2025 5 31 8 0 0 250000 None));
    reflexivity.
Defined.

(** *** C6 *)

(** The amended C6 where the cached credentials are valid and the build
    fails. *)
Lemma C6_witness :
  get_calendar_service broken_world logged_in
  = (Done None,
     {| token_pickle := Some cached_credentials; clock := 0;
        stdout := ["Loaded credentials from token.pickle";
                   "An error occurred while building the service: name: calendar  version: v3"];
        messages := []; calls := [] |})
  /\ (fst (GetEvent.run broken_world team_sync logged_in) = Done []
      /\ messages (snd (GetEvent.run broken_world team_sync logged_in))
         = ["Failed to initialize Google Calendar service."]
      /\ calls (snd (GetEvent.run broken_world team_sync logged_in)) = [])
  /\ (fst (AddEventToCalendar.run broken_world team_sync logged_in)
      = Done [AllSlotsReset]
      /\ messages (snd (AddEventToCalendar.run broken_world team_sync logged_in))
         = ["Failed to initialize Google Calendar service."]
      /\ calls (snd (AddEventToCalendar.run broken_world team_sync logged_in)) = []).
Proof.
  destruct (C6_build_error_is_service_unavailable
              broken_world team_sync logged_in
              {| token_pickle := Some cached_credentials; clock := 0;
                 stdout := ["Loaded credentials from token.pickle"];
                 messages := []; calls := [] |}
              cached_credentials (Exn OtherError "name: calendar  version: v3")
              eq_refl eq_refl)
    as (_ & Hget & Hadd & _).
  split; [reflexivity|]. split; [exact Hget|].
  apply (Hadd "Team Sync" "01/06/24 09:00:00" nine);
    [reflexivity | discriminate | reflexivity | discriminate | reflexivity].
Defined.

(** C6 as stated fails for an error that arises while the credentials
    are obtained: with no cached token and no client secret file,
    [get_calendar_service] raises instead of returning [None], and the
    handlers utter their catch-all messages, not the service failure
    message. *)
Lemma C6_counterexample :
  get_calendar_service broken_world fresh
  = (Raised (Exn OtherError "[Errno 2] No such file or directory: 'credentials.json'"),
     fresh)
  /\ messages (snd (AddEventToCalendar.run broken_world team_sync fresh))
     = ["An unexpected error occurred: [Errno 2] No such file or directory: 'credentials.json'"]
  /\ messages (snd (GetEvent.run broken_world team_sync fresh))
     = ["An error occurred while fetching events: [Errno 2] No such file or directory: 'credentials.json'"].
Proof. vm_compute. repeat split; reflexivity. Qed.

(** *** C7 *)

(** Both remote requests answered by an [HttpError]: the listing fails
    silently, the insertion that follows fails with a message. *)
Lemma C7_witness :
  let w := with_calendar quiet_world (Raised http_403) (Raised http_403) in
  fst (get_events w the_service
                  "2024-06-01T09:00:00+07:00" "2024-06-01T10:00:00+07:00" logged_in)
  = Done []
  /\ fst (add_event w the_service "Team Sync" nine_hcm ten_hcm logged_in) = Done None
  /\ fst (AddEventToCalendar.run w team_sync logged_in) = Done [AllSlotsReset]
  /\ messages (snd (AddEventToCalendar.run w team_sync logged_in))
     = ["Failed to add the event due to an internal error."].
Proof.
  cbv zeta.
  destruct (C7_list_errors_hidden_insert_errors_reported
              (with_calendar quiet_world (Raised http_403) (Raised http_403))
              http_403 eq_refl)
    as (Hlist & Hinsert & Hrun).
  split; [apply Hlist; reflexivity|].
  split; [apply Hinsert; reflexivity|].
  apply (Hrun team_sync logged_in "Team Sync" "01/06/24 09:00:00"
              nine nine_hcm ten_hcm the_service);
    try reflexivity; discriminate.
Defined.

(** C7 as stated, for every remote error, fails for a remote error that
    is no [HttpError].  When the requests time out, [get_events] and
    [add_event] raise instead of returning the empty sequence and
    [None]; the failure of the listing is visible to its caller, the get
    handler utters it, and the add handler, whether the time-out hits
    the conflict query or the insertion, utters its catch-all message
    and not the message of a failed insertion. *)
Lemma C7_counterexample :
  let w := with_calendar quiet_world (Raised timed_out) (Raised timed_out) in
  let w' := with_calendar quiet_world (Done (Some [])) (Raised timed_out) in
  events_list w the_service "2024-06-01T09:00:00+07:00" "2024-06-01T10:00:00+07:00"
  = Raised timed_out
  /\ fst (get_events w the_service
                     "2024-06-01T09:00:00+07:00" "2024-06-01T10:00:00+07:00" logged_in)
     = Raised timed_out
  /\ messages (snd (GetEvent.run w team_sync logged_in))
     = ["An error occurred while fetching events: timed out"]
  /\ messages (snd (AddEventToCalendar.run w team_sync logged_in))
     = ["An unexpected error occurred: timed out"]
  /\ events_insert w' the_service (new_event "Team Sync" nine_hcm ten_hcm)
     = Raised timed_out
  /\ fst (add_event w' the_service "Team Sync" nine_hcm ten_hcm logged_in)
     = Raised timed_out
  /\ messages (snd (AddEventToCalendar.run w' team_sync logged_in))
     = ["An unexpected error occurred: timed out"]
  /\ calls (snd (AddEventToCalendar.run w' team_sync logged_in))
     = [Call_get_events the_service
                        "2024-06-01T09:00:00+07:00" "2024-06-01T10:00:00+07:00";
        Call_add_event the_service "Team Sync" nine_hcm ten_hcm].
Proof. vm_compute. repeat split; reflexivity. Qed.

(** *** C10 *)

Lemma C10_witness :
  let w := with_calendar quiet_world (Done (Some [untitled; standup])) (Done []) in
  fst (AddEventToCalendar.run w team_sync logged_in) = Done [AllSlotsReset]
  /\ messages (snd (AddEventToCalendar.run w team_sync logged_in))
     = ["An unexpected error occurred: 'summary'"]
  /\ calls (snd (AddEventToCalendar.run w team_sync logged_in))
     = [Call_get_events the_service
                        "2024-06-01T09:00:00+07:00" "2024-06-01T10:00:00+07:00"].
Proof.
  cbv zeta.
  apply (C10_untitled_conflict_is_unexpected_error
           (with_calendar quiet_world (Done (Some [untitled; standup])) (Done []))
           team_sync logged_in "Team Sync" "01/06/24 09:00:00"
           nine nine_hcm ten_hcm the_service untitled [standup]);
    try reflexivity; discriminate.
Defined.

(** ** Credentials *)

Definition stale_credentials : Credentials :=
  {| valid := false; expired := true; refresh_token := Some "1//refresh" |}.

Definition revoked : exn :=
  Exn OtherError "invalid_grant: Token has been expired or revoked.".

Definition bad_secrets : exn :=
  Exn ValueError "Client secrets must be for a web or installed app.".

(** A run that finds expired credentials in the cache. *)
Definition logged_out : State :=
  {| token_pickle := Some stale_credentials;
     clock := 0; stdout := []; messages := []; calls := [] |}.

(** The world [w] with other answers from the OAuth machinery. *)
Definition with_oauth (w : World)
           (refresh_answer flow_answer : outcome Credentials) : World :=
  {| token_load_error := token_load_error w;
     refresh := fun _ => refresh_answer;
     run_local_server := flow_answer;
     token_save_error := token_save_error w;
     build := build w;
     events_list := events_list w;
     events_insert := events_insert w;
     utcnow := utcnow w |}.

Lemma service_built_from_cached_credentials_witness :
  exists creds,
    token_pickle (snd (get_calendar_service quiet_world fresh)) = Some creds
    /\ build quiet_world creds = Done the_service.
Proof.
  apply (service_built_from_cached_credentials quiet_world fresh (Some the_service)).
  reflexivity.
Defined.

Lemma valid_cache_is_used_as_is_witness :
  get_calendar_service (with_oauth quiet_world (Raised revoked) (Raised bad_secrets))
                       logged_in
  = (Done (Some the_service),
     {| token_pickle := Some cached_credentials; clock := 0;
        stdout := ["Loaded credentials from token.pickle"];
        messages := []; calls := [] |})
  /\ token_pickle
       (snd (get_calendar_service
               (with_oauth quiet_world (Raised revoked) (Raised bad_secrets))
               logged_in))
     = Some cached_credentials.
Proof.
  apply (valid_cache_is_used_as_is
           (with_oauth quiet_world (Raised revoked) (Raised bad_secrets))
           logged_in cached_credentials);
    reflexivity.
Defined.

Lemma expired_credentials_are_refreshed_witness :
  load_credentials (with_oauth quiet_world (Done cached_credentials) (Raised bad_secrets))
                   logged_out
  = (Done cached_credentials,
     {| token_pickle := Some cached_credentials; clock := 0;
        stdout := ["Loaded credentials from token.pickle";
                   "Credentials refreshed";
                   "Saved new credentials to token.pickle"];
        messages := []; calls := [] |})
  /\ token_pickle
       (snd (load_credentials
               (with_oauth quiet_world (Done cached_credentials) (Raised bad_secrets))
               logged_out))
     = Some cached_credentials.
Proof.
  apply (expired_credentials_are_refreshed
           (with_oauth quiet_world (Done cached_credentials) (Raised bad_secrets))
           logged_out stale_credentials cached_credentials);
    reflexivity.
Defined.

Lemma failed_refresh_is_not_retried_witness :
  get_calendar_service
    (with_oauth quiet_world (Raised revoked) (Done cached_credentials)) logged_out
  = (Raised revoked,
     {| token_pickle := Some stale_credentials; clock := 0;
        stdout := ["Loaded credentials from token.pickle"];
        messages := []; calls := [] |})
  /\ token_pickle
       (snd (get_calendar_service
               (with_oauth quiet_world (Raised revoked) (Done cached_credentials))
               logged_out))
     = Some stale_credentials.
Proof.
  apply (failed_refresh_is_not_retried
           (with_oauth quiet_world (Raised revoked) (Done cached_credentials))
           logged_out stale_credentials revoked);
    reflexivity.
Defined.

Lemma missing_or_stale_credentials_are_obtained_witness :
  fst (load_credentials quiet_world fresh) = Done cached_credentials
  /\ token_pickle (snd (load_credentials quiet_world fresh)) = Some cached_credentials
  /\ stdout (snd (load_credentials quiet_world fresh))
     = ["Obtained new credentials"; "Saved new credentials to token.pickle"].
Proof.
  apply (missing_or_stale_credentials_are_obtained quiet_world fresh cached_credentials);
    [exact I | reflexivity | reflexivity].
Defined.

(** ** The add handler *)

Lemma incomplete_request_touches_nothing_witness :
  AddEventToCalendar.run broken_world (tracker_of (Some "Team Sync") (Some "")) fresh
  = (Done [AllSlotsReset],
     {| token_pickle := None; clock := 0; stdout := [];
        messages := ["Please provide both the event name and time."];
        calls := [] |}).
Proof.
  apply (incomplete_request_touches_nothing
           broken_world (tracker_of (Some "Team Sync") (Some "")) fresh).
  right. reflexivity.
Defined.

Lemma unparsed_time_skips_authentication_witness :
  let run := AddEventToCalendar.run
               broken_world (tracker_of (Some "Team Sync") (Some "tomorrow")) fresh in
  token_pickle (snd run) = None /\ stdout (snd run) = []
  /\ clock (snd run) = 0%nat /\ calls (snd run) = [].
Proof.
  cbv zeta.
  apply (unparsed_time_skips_authentication
           broken_world (tracker_of (Some "Team Sync") (Some "tomorrow")) fresh
           "Team Sync" "tomorrow"
           "time data 'tomorrow' does not match format '%d/%m/%y %H:%M:%S'");
    [reflexivity | discriminate | reflexivity | discriminate | reflexivity].
Defined.

Lemma confirmation_implies_insertion_witness :
  exists service start_ end_ created,
    window team_sync start_ end_
    /\ listed quiet_world service (isoformat start_) (isoformat end_) = Done []
    /\ events_insert quiet_world service (new_event "Team Sync" start_ end_)
       = Done created
    /\ created <> []
    /\ calls (snd (AddEventToCalendar.run quiet_world team_sync logged_in))
       = [Call_get_events service (isoformat start_) (isoformat end_);
          Call_add_event service "Team Sync" start_ end_].
Proof.
  apply (confirmation_implies_insertion
           quiet_world team_sync logged_in
           "Event 'Team Sync' successfully added to your calendar from 01/06/24 09:00:00 to 01/06/24 10:00:00.");
    reflexivity.
Defined.

Lemma wrappers_never_raise_http_errors_witness :
  let w := with_calendar quiet_world (Raised timed_out) (Raised timed_out) in
  (is_HttpError timed_out = false
   /\ events_list w the_service "2024-06-01T09:00:00+07:00" "2024-06-01T10:00:00+07:00"
      = Raised timed_out)
  /\ (is_HttpError timed_out = false
      /\ events_insert w the_service (new_event "Team Sync" nine_hcm ten_hcm)
         = Raised timed_out).
Proof.
  cbv zeta.
  destruct (wrappers_never_raise_http_errors
              (with_calendar quiet_world (Raised timed_out) (Raised timed_out))
              the_service "2024-06-01T09:00:00+07:00" "2024-06-01T10:00:00+07:00"
              "Team Sync" nine_hcm ten_hcm logged_in timed_out)
    as [Hlist Hinsert].
  split; [apply Hlist | apply Hinsert]; reflexivity.
Defined.

Lemma failed_conflict_query_counts_as_free_witness :
  calls (snd (AddEventToCalendar.run
                (with_calendar quiet_world (Raised http_403) (Done []))
                team_sync logged_in))
  = [Call_get_events the_service
                     "2024-06-01T09:00:00+07:00" "2024-06-01T10:00:00+07:00";
     Call_add_event the_service "Team Sync" nine_hcm ten_hcm].
Proof.
  apply (failed_conflict_query_counts_as_free
           (with_calendar quiet_world (Raised http_403) (Done []))
           team_sync logged_in "Team Sync" "01/06/24 09:00:00"
           nine nine_hcm ten_hcm the_service http_403);
    try reflexivity; discriminate.
Defined.

Lemma broken_conflict_query_aborts_the_booking_witness :
  let run := AddEventToCalendar.run
               (with_calendar quiet_world (Raised timed_out) (Done []))
               team_sync logged_in in
  fst run = Done [AllSlotsReset]
  /\ messages (snd run) = ["An unexpected error occurred: timed out"]
  /\ calls (snd run)
     = [Call_get_events the_service
                        "2024-06-01T09:00:00+07:00" "2024-06-01T10:00:00+07:00"].
Proof.
  cbv zeta.
  apply (broken_conflict_query_aborts_the_booking
           (with_calendar quiet_world (Raised timed_out) (Done []))
           team_sync logged_in "Team Sync" "01/06/24 09:00:00"
           nine nine_hcm ten_hcm the_service timed_out);
    try reflexivity; discriminate.
Defined.

Lemma broken_insertion_is_reported_by_the_catch_all_witness :
  let run := AddEventToCalendar.run
               (with_calendar quiet_world (Done (Some [])) (Raised timed_out))
               team_sync logged_in in
  fst run = Done [AllSlotsReset]
  /\ messages (snd run) = ["An unexpected error occurred: timed out"]
  /\ calls (snd run)
     = [Call_get_events the_service
                        "2024-06-01T09:00:00+07:00" "2024-06-01T10:00:00+07:00";
        Call_add_event the_service "Team Sync" nine_hcm ten_hcm].
Proof.
  cbv zeta.
  apply (broken_insertion_is_reported_by_the_catch_all
           (with_calendar quiet_world (Done (Some [])) (Raised timed_out))
           team_sync logged_in "Team Sync" "01/06/24 09:00:00"
           nine nine_hcm ten_hcm the_service timed_out);
    try reflexivity; discriminate.
Defined.

(** A client secret file of the wrong kind: the time parses, and the
    message speaks of a time parsing error. *)
Lemma acquisition_error_is_reported_like_a_parse_error_witness :
  let run := AddEventToCalendar.run
               (with_oauth quiet_world (Raised revoked) (Raised bad_secrets))
               team_sync fresh in
  fst run = Done [AllSlotsReset]
  /\ messages (snd run)
     = ["Time parsing error: Client secrets must be for a web or installed app.. Please ensure the time is in 'DD/MM/YY HH:MM:SS' format."]
  /\ calls (snd run) = [].
Proof.
  cbv zeta.
  apply (acquisition_error_is_reported_like_a_parse_error
           (with_oauth quiet_world (Raised revoked) (Raised bad_secrets))
           team_sync fresh "Team Sync" "01/06/24 09:00:00" nine bad_secrets);
    try reflexivity; discriminate.
Defined.

(** The positive part of the conflict report, on a titled event. *)
Lemma conflict_blocks_insertion_witness :
  let run := AddEventToCalendar.run
               (with_calendar quiet_world (Done (Some [standup; holiday])) (Done []))
               team_sync logged_in in
  fst run = Done [AllSlotsReset]
  /\ calls (snd run)
     = [Call_get_events the_service
                        "2024-06-01T09:00:00+07:00" "2024-06-01T10:00:00+07:00"]
  /\ messages (snd run)
     = ["Cannot create new event because the time slot is already taken by 'Standup' at 2024-06-01T09:30:00+07:00."].
Proof.
  cbv zeta.
  destruct (conflict_blocks_insertion
              (with_calendar quiet_world (Done (Some [standup; holiday])) (Done []))
              team_sync logged_in "Team Sync" "01/06/24 09:00:00"
              nine nine_hcm ten_hcm the_service standup [holiday])
    as (Hr & Hc & Hm); try reflexivity; try discriminate.
  split; [exact Hr|]. split; [exact Hc|].
  apply (Hm "Standup" "2024-06-01T09:30:00+07:00"); reflexivity.
Defined.

(** ** The get handler *)

Lemma failed_listing_reads_as_no_events_witness :
  messages (snd (GetEvent.run (with_calendar quiet_world (Raised http_403) (Done []))
                              team_sync logged_in))
  = ["You have no upcoming events."]
  /\ messages (snd (GetEvent.run (with_calendar quiet_world (Raised timed_out) (Done []))
                                 team_sync logged_in))
     = ["An error occurred while fetching events: timed out"].
Proof.
  split.
  - apply (failed_listing_reads_as_no_events
             (with_calendar quiet_world (Raised http_403) (Done []))
             team_sync logged_in the_service (mkdt 2025 5 31 8 0 0 250000 None)
             http_403);
      reflexivity.
  - apply (failed_listing_reads_as_no_events
             (with_calendar quiet_world (Raised timed_out) (Done []))
             team_sync logged_in the_service (mkdt 2025 5 31 8 0 0 250000 None)
             timed_out);
      reflexivity.
Defined.

Lemma acquisition_error_is_reported_as_fetch_error_witness :
  let run := GetEvent.run (with_oauth quiet_world (Raised revoked) (Raised bad_secrets))
                          team_sync logged_out in
  fst run = Done []
  /\ messages (snd run)
     = ["An error occurred while fetching events: invalid_grant: Token has been expired or revoked."]
  /\ calls (snd run) = []
  /\ clock (snd run) = 0%nat.
Proof.
  cbv zeta.
  apply (acquisition_error_is_reported_as_fetch_error
           (with_oauth quiet_world (Raised revoked) (Raised bad_secrets))
           team_sync logged_out revoked).
  reflexivity.
Defined.

Lemma one_event_without_start_hides_the_listing_witness :
  let run := GetEvent.run
               (with_calendar quiet_world
                              (Done (Some [standup; holiday; startless])) (Done []))
               team_sync logged_in in
  fst run = Done []
  /\ messages (snd run) = ["An error occurred while fetching events: 'start'"].
Proof.
  cbv zeta.
  apply (one_event_without_start_hides_the_listing
           (with_calendar quiet_world
                          (Done (Some [standup; holiday; startless])) (Done []))
           team_sync logged_in the_service (mkdt 2025 5 31 8 0 0 250000 None)
           [standup; holiday; startless]);
    try reflexivity.
  right. right. left. reflexivity.
Defined.
